(** * Session synchronisation of the presenter backend

    A shallow embedding of [app/lib/SessionManager.js]: the session snapshot,
    the handlers registered on the socket server and the messages they emit,
    followed by the properties of the specification checked against them.

    JavaScript values are embedded as follows.
    - A line id or a status is [option string]; [None] stands for [null] and
      [undefined], which the handlers never tell apart for these fields.
    - An order id received from a client is a [JsNum]: absent, [null] or a
      number.  Order ids stored in the database are integers ([Z]).
    - A settings value is a JSON tree [JsVal]; the host-keyed stores
      ([session.settings], the public view, a settings message) are finite
      maps from host names to such trees.  A key bound to [JUndef] is a
      property whose value is [undefined].
    - A handler is a function on the server state that either returns or
      throws; what it changed and sent before throwing stays. *)

From Stdlib Require Import ZArith Lia.
From stdpp Require Import gmap strings list fin_maps.

Local Open Scope Z_scope.
Set Warnings "-register-all".

(** ** JSON values *)

Inductive JsVal : Type :=
  | JUndef
  | JNull
  | JBool (b : bool)
  | JNum (n : Z)
  | JStr (s : string)
  | JArr (items : list JsVal)
  | JObj (fields : list (string * JsVal)).

Definition is_undef (v : JsVal) : bool :=
  match v with JUndef => true | _ => false end.

(** Truthiness of a value, as tested by [?:] and [||]. *)
Definition truthy (v : JsVal) : bool :=
  match v with
  | JUndef | JNull => false
  | JBool b => b
  | JNum n => negb (n =? 0)
  | JStr s => negb (String.eqb s "")
  | JArr _ | JObj _ => true
  end.

(** Own property [k] of an object literal, first binding. *)
Fixpoint field (k : string) (fs : list (string * JsVal)) : option JsVal :=
  match fs with
  | [] => None
  | (k', v) :: fs' => if String.eqb k k' then Some v else field k fs'
  end.

(** [o[k] = v] on an object literal: overwrite in place, or append. *)
Fixpoint set_field (k : string) (v : JsVal) (fs : list (string * JsVal))
  : list (string * JsVal) :=
  match fs with
  | [] => [(k, v)]
  | (k', v') :: fs' =>
      if String.eqb k k' then (k, v) :: fs' else (k', v') :: set_field k v fs'
  end.

(** *** [get-value]

    [get( target, path )] of get-value 3, for a dotted [path] given by its
    segments, none of which is an array index or the name of a member every
    object inherits (as in [security.options.private]).  A target that is
    not an object is returned as it is.  A key that is the whole dotted path
    is taken first.  Otherwise the segments are followed one object at a
    time; where a segment is no key of the object at hand, it is joined with
    the segments after it, by dots, until the join is a key.  A segment that
    cannot be resolved, or one below a value that is not an object, gives
    [undefined]. *)

(** [isValidObject( target )] and the keys [in] can find: those of an
    object; an array has none of the keys considered here. *)
Definition fieldsOf (v : JsVal) : option (list (string * JsVal)) :=
  match v with
  | JObj fs => Some fs
  | JArr _ => Some []
  | _ => None
  end.

(** The loop of [get]: [pending] is the join of the segments that were no
    key of [target] so far. *)
Fixpoint descend (target : JsVal) (pending : option string)
    (segs : list string) : JsVal :=
  match segs with
  | [] =>
      match pending with
      | None => target
      | Some _ => JUndef
      end
  | seg :: segs' =>
      match fieldsOf target with
      | None => JUndef
      | Some fs =>
          let prop := match pending with
                      | None => seg
                      | Some p => String.append p (String.append "." seg)
                      end in
          match field prop fs with
          | Some v => descend v None segs'
          | None => descend target (Some prop) segs'
          end
      end
  end.

Definition get_value (target : JsVal) (path : list string) : JsVal :=
  match fieldsOf target with
  | None => target
  | Some fs =>
      match field (String.concat "." path) fs with
      | Some v => v
      | None => descend target None path
      end
  end.

(** *** [deepmerge]

    [merge( target, source, { arrayMerge: ( _, source ) => source } )] of
    deepmerge 4.3.  Two objects are merged key by key into a copy of the
    target: a source value that is an object or an array is merged with what
    the target has under the key, any other replaces it.  Arrays are taken
    from the source as they are.  A source key that names a member the
    target inherits and does not own is skipped, so a copy, which is the
    merge into an empty object, has none of these keys.

    The source is an object or an array wherever the handlers and the merge
    itself call [deepmerge]; for any other source the definition gives the
    source.  The keys of an object are taken to be distinct.  A key
    [__proto__] that an object owns, as [JSON.parse] can make one, is
    skipped like the other inherited names where the target is an object
    that does not own it.  Where the library would assign it to the result
    instead (the target owns it, or the target is no object), the assignment
    sets the prototype of the result, and values carry no prototype here:
    such objects are outside the embedding. *)
Definition isMergeableObject (v : JsVal) : bool :=
  match v with JObj _ | JArr _ => true | _ => false end.

(** The members of [Object.prototype]. *)
Definition inheritedNames : list string :=
  ["constructor"; "__defineGetter__"; "__defineSetter__"; "hasOwnProperty";
   "__lookupGetter__"; "__lookupSetter__"; "isPrototypeOf";
   "propertyIsEnumerable"; "toString"; "valueOf"; "__proto__";
   "toLocaleString"]%string.

(** [key in {}] *)
Definition inherited (k : string) : bool :=
  existsb (String.eqb k) inheritedNames.

(** [cloneUnlessOtherwiseSpecified( value, options )]: an object is merged
    into [{}], an array is returned by [arrayMerge] as it is. *)
Fixpoint clone (v : JsVal) : JsVal :=
  match v with
  | JObj fs =>
      JObj ((fix copy (fs : list (string * JsVal)) {struct fs} :=
               match fs with
               | [] => []
               | (k, x) :: fs' =>
                   if inherited k then copy fs' else (k, clone x) :: copy fs'
               end) fs)
  | _ => v
  end.

(** The copy of the target's own properties that [mergeObject] starts
    from. *)
Definition cloneFields (fs : list (string * JsVal)) : list (string * JsVal) :=
  map (λ kv, (kv.1, clone kv.2)) fs.

Fixpoint deepmerge (target source : JsVal) {struct source} : JsVal :=
  match source with
  | JObj sfs =>
      match target with
      | JArr _ => clone source
      | JObj tfs =>
          JObj ((fix mergeObject (sfs dest : list (string * JsVal))
                     {struct sfs} :=
                   match sfs with
                   | [] => dest
                   | (k, v) :: sfs' =>
                       mergeObject sfs'
                         match field k tfs with
                         | Some t =>
                             set_field k
                               (if isMergeableObject v then deepmerge t v
                                else v) dest
                         | None =>
                             if inherited k then dest
                             else set_field k (clone v) dest
                         end
                   end) sfs (cloneFields tfs))
      | _ =>
          (* [in] throws on a primitive: no key is on the target, and the
             destination gets a copy of every property of the source *)
          JObj (cloneFields sfs)
      end
  | _ => source
  end.

(** One key of [mergeObject] on host-keyed objects: the value the
    destination gets for a key of the source, if the key is not skipped. *)
Definition mergeKey (t : option JsVal) (k : string) (v : JsVal)
  : option JsVal :=
  match t with
  | Some t' => Some (if isMergeableObject v then deepmerge t' v else v)
  | None => if inherited k then None else Some (clone v)
  end.

Definition mergeObject (target source : gmap string JsVal) : gmap string JsVal :=
  map_imap (λ k v, mergeKey (target !! k) k v) source ∪ (clone <$> target).

(** [merge.all( objects, options )] reduces from the empty object. *)
Definition merge_all (objects : list (gmap string JsVal)) : gmap string JsVal :=
  foldl mergeObject ∅ objects.

(** Property read [o[k]] on a host-keyed object: the value of the key if the
    object owns it, else [undefined].  Reading the name of an inherited
    member that the object does not own gives that member in JavaScript;
    this is not modelled. *)
Definition prop (o : gmap string JsVal) (k : string) : JsVal :=
  default JUndef (o !! k).

(** What [JSON.stringify] keeps of an object: the properties whose value is
    not [undefined]. *)
Definition json (o : gmap string JsVal) : gmap string JsVal :=
  filter (λ kv, is_undef kv.2 = false) o.

(** ** Numbers sent by clients, and lodash's [clamp] *)

Inductive JsNum : Type :=
  | NumUndefined
  | NumNull
  | Num (n : Z).

Definition num_truthy (x : JsNum) : bool :=
  match x with Num n => negb (n =? 0) | _ => false end.

(** [toNumber]: [undefined] is [NaN] (here [None]), [null] is [0]. *)
Definition toNumber (x : JsNum) : option Z :=
  match x with
  | NumUndefined => None
  | NumNull => Some 0
  | Num n => Some n
  end.

(** [clamp( number, lower, upper )]: [NaN] stays [NaN]; otherwise the upper
    bound is applied first, then the lower one. *)
Definition clamp (number : JsNum) (lower upper : Z) : option Z :=
  match toNumber number with
  | None => None
  | Some n =>
      let n := if n <=? upper then n else upper in
      Some (if n >=? lower then n else lower)
  end.

(** [x || null] on a number: [NaN] and [0] both become [null]. *)
Definition or_null (x : option Z) : option Z :=
  match x with
  | Some 0 => None
  | _ => x
  end.

(** [a || b] on optional strings: the empty string is falsy. *)
Definition str_or (a b : option string) : option string :=
  match a with
  | Some s => if String.eqb s "" then b else a
  | None => b
  end.

(** ** Content, history and the session snapshot *)

Record Line : Type := mkLine {
  line_id : string;
  line_orderId : Z;
  gurmukhi : string;
}.

(** A Shabad or the line sequence of a Bani, as the database returns it. *)
Record Content : Type := mkContent {
  content_id : string;
  content_orderId : Z;
  lines : list Line;
}.

Record HistoryEntry : Type := mkEntry {
  entry_line : option Line;
  isTransition : bool;
}.

(** The class [History] of [app/lib/History.js] is not among the sources:
    the log is modelled as the ordered sequence of its entries. *)
Module History.

Definition t : Type := list HistoryEntry.

(** Modelled from the spec: [History.update] (Append), which adds one entry
    at the end of the log and tolerates a missing line. *)
Definition update (h : t) (line : option Line) (isTransition : bool) : t :=
  h ++ [mkEntry line isTransition].

(** Modelled from the spec: [History.getTransitionsOnly], the subsequence of
    the entries flagged as transitions, in their original order. *)
Definition getTransitionsOnly (h : t) : t :=
  List.filter isTransition h.

(** Modelled from the spec: [History.reset], which clears all entries. *)
Definition reset (h : t) : t := [].

End History.

Record Session : Type := mkSession {
  bani : option Content;
  lineId : option string;
  shabad : option Content;
  viewedLines : list (option string);
  mainLineId : option string;
  history : History.t;
  settings : gmap string JsVal;
  status : option string;
}.

(** The state set up by the constructor. *)
Definition initialSession : Session :=
  {| bani := None; lineId := None; shabad := None; viewedLines := [];
     mainLineId := None; history := []; settings := ∅; status := None |}.

(** [Set.prototype.add]: insertion order, no duplicates. *)
Definition set_add (x : option string) (s : list (option string))
  : list (option string) :=
  if decide (x ∈ s) then s else s ++ [x].

(** ** Messages and the server state *)

(** What a message carries.  The viewed lines are given by their elements in
    insertion order, both where [onLine] broadcasts a copy of the set as an
    array and where [synchronise] hands over the set itself. *)
Inductive Payload : Type :=
  | PContent (c : option Content)
  | PLine (id : option string)
  | PViewedLines (ids : list (option string))
  | PStatus (s : option string)
  | PHistory (h : History.t)
  | PSettings (o : gmap string JsVal).

Inductive Message : Type :=
  | Broadcast (event : string) (data : Payload)
  | SendJSON (host : string) (event : string) (data : Payload).

Module settingsManager.

(** Modelled from the spec: [settingsManager.merge] of [app/lib/settings.js],
    not among the sources (MergeGlobal): the merge rule of the host entries
    applied to the single shared global configuration.  [settingsManager.get]
    reads that configuration, the field [globalSettings] below. *)
Definition merge (stored fragment : JsVal) : JsVal := deepmerge stored fragment.

End settingsManager.

(** The session manager with what it reaches through its collaborators: the
    global settings store, the hosts of the clients the socket server
    iterates over in [forEach], and the messages sent so far, oldest first.
    The clients are the socket server's own: no handler of the session
    manager adds or removes one, so [clients] is only ever read here. *)
Record Server : Type := mkServer {
  session : Session;
  globalSettings : JsVal;
  clients : list string;
  sent : list Message;
}.

(** The content repository [app/lib/db.js], not among the sources: the
    lookups are parameters.  [None] is a lookup that fails, by rejecting or
    by resolving to nothing. *)
Record Db : Type := mkDb {
  getShabad : option string → option Content;
  getShabadByOrderId : option Z → option Content;
  getBaniLines : string → option Content;
  getShabadRange : option (Z * Z);
}.

(** ** Handlers: state passing with exceptions *)

Inductive Outcome (A : Type) : Type :=
  | Returned (a : A)
  | Threw.
Arguments Returned {A} a.
Arguments Threw {A}.

Definition Handler (A : Type) : Type := Server → Outcome A * Server.

Definition ret {A} (a : A) : Handler A := λ σ, (Returned a, σ).

Definition bind {A B} (m : Handler A) (k : A → Handler B) : Handler B :=
  λ σ, match m σ with
       | (Returned a, σ') => k a σ'
       | (Threw, σ') => (Threw, σ')
       end.

Definition throw {A} : Handler A := λ σ, (Threw, σ).

Notation "'let*' x ':=' m 'in' k" := (bind m (λ x, k))
  (at level 10, x name, m at level 100, k at level 200).

(** A value that has to be there: reading a property of, or destructuring,
    [null] or [undefined] throws a [TypeError]; a rejected lookup throws at
    its [await]. *)
Definition required {A} (x : option A) : Handler A :=
  match x with
  | Some a => ret a
  | None => throw
  end.

Definition getSession : Handler Session := λ σ, (Returned (session σ), σ).

Definition setSession (s : Session) : Handler unit :=
  λ σ, (Returned tt, mkServer s (globalSettings σ) (clients σ) (sent σ)).

Definition emit (m : Message) : Handler unit :=
  λ σ, (Returned tt,
        mkServer (session σ) (globalSettings σ) (clients σ) (sent σ ++ [m])).

Definition broadcast (event : string) (data : Payload) : Handler unit :=
  emit (Broadcast event data).

Definition sendJSON (host : string) (event : string) (data : Payload)
  : Handler unit :=
  emit (SendJSON host event data).

Fixpoint forEach {A} (f : A → Handler unit) (l : list A) : Handler unit :=
  match l with
  | [] => ret tt
  | a :: l' => let* _ := f a in forEach f l'
  end.

Definition getGlobal : Handler JsVal :=
  λ σ, (Returned (globalSettings σ), σ).

Definition setGlobal (g : JsVal) : Handler unit :=
  λ σ, (Returned tt, mkServer (session σ) g (clients σ) (sent σ)).

Definition getClients : Handler (list string) :=
  λ σ, (Returned (clients σ), σ).

(** ** Event payloads *)

(** [{ lineId, lineOrderId }] *)
Record LinePayload : Type := mkLinePayload {
  p_lineId : option string;
  p_lineOrderId : JsNum;
}.

(** [{ shabadId, shabadOrderId = null, ...rest }] *)
Record ShabadPayload : Type := mkShabadPayload {
  shabadId : option string;
  shabadOrderId : JsNum;
  rest : LinePayload;
}.

(** Destructuring [{ lineId, lineOrderId }] from a string: a string has
    neither property, both are [undefined]. *)
Definition ofString (id : string) : LinePayload :=
  {| p_lineId := None; p_lineOrderId := NumUndefined |}.

(** ** The handlers of [SessionManager] *)

Definition privatePath : list string := ["security"; "options"; "private"]%string.

(** [getPublicSettings]: every entry of [session.settings], with the value
    replaced by [undefined] where [security.options.private] is truthy. *)
Definition getPublicSettings (s : Session) : gmap string JsVal :=
  map_fold
    (λ host settings acc,
       <[host := if truthy (get_value settings privatePath)
                 then JUndef else settings]> acc)
    ∅ (settings s).

(** [synchronise( client )] *)
Definition synchronise (host : string) : Handler unit :=
  let* s := getSession in
  let* _ := match bani s with
            | Some b => sendJSON host "bani" (PContent (Some b))
            | None => sendJSON host "shabad" (PContent (shabad s))
            end in
  let* _ := sendJSON host "line" (PLine (lineId s)) in
  let* _ := sendJSON host "viewedLines" (PViewedLines (viewedLines s)) in
  let* _ := sendJSON host "mainLine" (PLine (mainLineId s)) in
  let* _ := sendJSON host "status" (PStatus (status s)) in
  let* _ := sendJSON host "history"
              (PHistory (History.getTransitionsOnly (history s))) in
  sendJSON host "settings" (PSettings (getPublicSettings s)).

(** [clearCache( { host } )] *)
Definition clearCache (host : string) : Handler unit :=
  let* s := getSession in
  setSession
    {| bani := bani s; lineId := lineId s; shabad := shabad s;
       viewedLines := viewedLines s; mainLineId := mainLineId s;
       history := history s;
       settings := <[host := JUndef]> (settings s);
       status := status s |}.

(** [clamp( lineOrderId, ...lineOrderIdRange ) || null], the range being the
    order ids of the first and of the last line of the Shabad. *)
Definition clampedLineOrderId (first last : Line) (payload : LinePayload)
  : option Z :=
  or_null (clamp (p_lineOrderId payload)
             (line_orderId first) (line_orderId last)).

(** [lineId || ( shabad.lines.find( ... ) || {} ).id || null] *)
Definition newLineId (sh : Content) (first last : Line) (payload : LinePayload)
  : option string :=
  str_or (p_lineId payload)
    (str_or
       (line_id <$>
          List.find (λ l, match clampedLineOrderId first last payload with
                          | Some n => line_orderId l =? n
                          | None => false
                          end) (lines sh))
       None).

(** [lines.find( ( { id } ) => newLineId === id )] *)
Definition findLine (id : option string) (lines : list Line) : option Line :=
  List.find (λ l, match id with
                  | Some id => String.eqb id (line_id l)
                  | None => false
                  end) lines.

(** [transition || newLineId === null] *)
Definition isTransitionOf (transition : bool) (id : option string) : bool :=
  transition || match id with
                | None => true
                | Some _ => false
                end.

(** [onLine( client, { lineId, lineOrderId }, transition = false )] *)
Definition onLine (payload : LinePayload) (transition : bool) : Handler unit :=
  let* s := getSession in
  (* shabad.lines[ 0 ], shabad.lines[ shabad.lines.length - 1 ] *)
  let* sh := required (shabad s) in
  let* first := required (head (lines sh)) in
  let* last := required (last (lines sh)) in
  let newLineId := newLineId sh first last payload in
  (* viewedLines.add( newLineId ), on the set the session holds *)
  let viewed := set_add newLineId (viewedLines s) in
  (* const { lines = [] } = shabad || bani || {} *)
  let lines := match shabad s with
               | Some c => lines c
               | None => match bani s with
                         | Some c => lines c
                         | None => []
                         end
               end in
  let* _ := setSession
              {| bani := bani s; lineId := newLineId; shabad := shabad s;
                 viewedLines := viewed; mainLineId := mainLineId s;
                 history := history s; settings := settings s;
                 status := status s |} in
  let* _ := broadcast "line" (PLine newLineId) in
  let* _ := broadcast "viewedLines" (PViewedLines viewed) in
  let line := findLine newLineId lines in
  let isTransition := isTransitionOf transition newLineId in
  let* s' := getSession in
  setSession
    {| bani := bani s'; lineId := lineId s'; shabad := shabad s';
       viewedLines := viewedLines s'; mainLineId := mainLineId s';
       history := History.update (history s') line isTransition;
       settings := settings s'; status := status s' |}.

(** The lookup of [onShabad]: the range, the clamped order id, and the fetch
    by order id or by id. *)
Definition lookupShabad (db : Db) (payload : ShabadPayload) : option Content :=
  match getShabadRange db with
  | None => None
  | Some (lower, upper) =>
      let clampedShabadOrderId :=
        or_null (clamp (match shabadOrderId payload with
                        | NumUndefined => NumNull
                        | n => n
                        end) lower upper) in
      if num_truthy (shabadOrderId payload)
      then getShabadByOrderId db clampedShabadOrderId
      else getShabad db (shabadId payload)
  end.

(** [onShabad( client, { shabadId, shabadOrderId = null, ...rest } )] *)
Definition onShabad (db : Db) (payload : ShabadPayload) : Handler unit :=
  (* a failed lookup, or [shabad.id] of no Shabad, throws here *)
  let* sh := required (lookupShabad db payload) in
  let* s := getSession in
  let* _ := setSession
              {| bani := None; lineId := lineId s; shabad := Some sh;
                 viewedLines := []; mainLineId := None;
                 history := history s; settings := settings s;
                 status := status s |} in
  let* _ := broadcast "shabad" (PContent (Some sh)) in
  let* _ := onLine (rest payload) true in
  let* s' := getSession in
  broadcast "history" (PHistory (History.getTransitionsOnly (history s'))).

(** [onMainLine( client, mainLineId )] *)
Definition onMainLine (id : option string) : Handler unit :=
  let* _ := broadcast "mainLine" (PLine id) in
  let* s := getSession in
  setSession
    {| bani := bani s; lineId := lineId s; shabad := shabad s;
       viewedLines := viewedLines s; mainLineId := id;
       history := history s; settings := settings s; status := status s |}.

(** [onClearHistory()] *)
Definition onClearHistory : Handler unit :=
  let* s := getSession in
  let* _ := setSession
              {| bani := bani s; lineId := lineId s; shabad := shabad s;
                 viewedLines := viewedLines s; mainLineId := mainLineId s;
                 history := History.reset (history s);
                 settings := settings s; status := status s |} in
  let* s' := getSession in
  broadcast "history" (PHistory (History.getTransitionsOnly (history s'))).

(** [onBani( client, baniId )] *)
Definition onBani (db : Db) (baniId : string) : Handler unit :=
  let* b := required (getBaniLines db baniId) in
  (* const { lines: [ firstLine ] } = bani ; const { id } = firstLine *)
  let* firstLine := required (head (lines b)) in
  let id := line_id firstLine in
  let* s := getSession in
  let* _ := setSession
              {| bani := Some b; lineId := lineId s; shabad := None;
                 viewedLines := []; mainLineId := mainLineId s;
                 history := history s; settings := settings s;
                 status := status s |} in
  let* _ := broadcast "bani" (PContent (Some b)) in
  let* _ := onLine (ofString id) true in
  let* s' := getSession in
  broadcast "history" (PHistory (History.getTransitionsOnly (history s'))).

(** The object sent to the client of [host] by [onSettings]:
    [{ ...publicSettings, [ host ]: undefined, local: ..., global: ... }],
    later properties overriding earlier ones. *)
Definition settingsMessage (publicSettings : gmap string JsVal)
    (s : Session) (global : JsVal) (host : string) : gmap string JsVal :=
  <["global"%string := global]>
    (<["local"%string := prop (settings s) host]>
       (<[host := JUndef]> publicSettings)).

(** The destructuring [{ local, global = {}, ...rest }] of a settings
    payload. *)
Definition localOf (payload : gmap string JsVal) : JsVal :=
  prop payload "local".

Definition globalOf (payload : gmap string JsVal) : JsVal :=
  match prop payload "global" with
  | JUndef => JObj []
  | g => g
  end.

Definition restOf (payload : gmap string JsVal) : gmap string JsVal :=
  delete "global"%string (delete "local"%string payload).

(** [onSettings( client, { local, global = {}, ...rest } )] *)
Definition onSettings (host : string) (payload : gmap string JsVal)
  : Handler unit :=
  let* g := getGlobal in
  let* _ := setGlobal (settingsManager.merge g (globalOf payload)) in
  let* s := getSession in
  let* _ := setSession
              {| bani := bani s; lineId := lineId s; shabad := shabad s;
                 viewedLines := viewedLines s; mainLineId := mainLineId s;
                 history := history s;
                 settings := merge_all [settings s; restOf payload;
                                        {[host := localOf payload]}];
                 status := status s |} in
  let* s' := getSession in
  let publicSettings := getPublicSettings s' in
  let* cs := getClients in
  forEach (λ host,
             let* s'' := getSession in
             let* g' := getGlobal in
             sendJSON host "settings"
               (PSettings (settingsMessage publicSettings s'' g' host)))
          cs.

(** [setStatus( status = null )] *)
Definition setStatus (st : option string) : Handler unit :=
  let* s := getSession in
  let* _ := setSession
              {| bani := bani s; lineId := lineId s; shabad := shabad s;
                 viewedLines := viewedLines s; mainLineId := mainLineId s;
                 history := history s; settings := settings s;
                 status := st |} in
  broadcast "status" (PStatus st).

(** The events of the socket server the constructor registers handlers for. *)
Inductive Event : Type :=
  | Connection (host : string)
  | Disconnection (host : string)
  | EvShabad (host : string) (payload : ShabadPayload)
  | EvLine (host : string) (payload : LinePayload)
  | EvMainLine (host : string) (id : option string)
  | EvClearHistory
  | EvBani (host : string) (baniId : string)
  | EvSettings (host : string) (payload : gmap string JsVal).

Definition handle (db : Db) (e : Event) : Handler unit :=
  match e with
  | Connection host => synchronise host
  | Disconnection host => clearCache host
  | EvShabad _ payload => onShabad db payload
  | EvLine _ payload => onLine payload false
  | EvMainLine _ id => onMainLine id
  | EvClearHistory => onClearHistory
  | EvBani _ baniId => onBani db baniId
  | EvSettings host payload => onSettings host payload
  end.

(** The server after an event, whether its handler returned or threw. *)
Definition after (db : Db) (e : Event) (σ : Server) : Server :=
  snd (handle db e σ).

(** The messages an event added. *)
Definition emitted (db : Db) (e : Event) (σ : Server) : list Message :=
  drop (length (sent σ)) (sent (after db e σ)).

(** ** Scenarios of the specification *)

Definition l1 : Line := mkLine "l1" 0 "".
Definition l2 : Line := mkLine "l2" 1 "".
Definition japji : Content := mkContent "japji" 1 [l1; l2].

Definition scenarioDb : Db :=
  {| getShabad := λ id, if decide (id = Some "japji"%string) then Some japji else None;
     getShabadByOrderId := λ n, if decide (n = Some 1) then Some japji else None;
     getBaniLines := λ id, if decide (id = "japji"%string) then Some japji else None;
     getShabadRange := Some (1, 500) |}.

Definition freshServer : Server :=
  {| session := initialSession; globalSettings := JObj [];
     clients := []; sent := [] |}.

(** A server whose active Shabad is [japji]. *)
Definition japjiServer : Server :=
  {| session :=
       {| bani := None; lineId := Some "l1"%string; shabad := Some japji;
          viewedLines := [Some "l1"%string]; mainLineId := None;
          history := [mkEntry (Some l1) true]; settings := ∅;
          status := None |};
     globalSettings := JObj []; clients := []; sent := [] |}.

(** A server with three clients connected and no settings yet. *)
Definition connectedServer : Server :=
  {| session := initialSession;
     globalSettings := JObj [("launchOnStartup"%string, JBool false)];
     clients := ["h1"; "h3"; "h4"]%string; sent := [] |}.

Definition dark : JsVal := JObj [("theme"%string, JStr "dark")].

(** Settings that are flagged private, next to a field that is not
    sensitive. *)
Definition privateDark : JsVal :=
  JObj [("theme"%string, JStr "dark");
        ("security"%string,
         JObj [("options"%string, JObj [("private"%string, JBool true)])])].

(** A repository whose range of Shabad order ids starts at 0; the Shabad at
    order id 0 is not the one with the id "japji". *)
Definition mool : Content := mkContent "mool" 0 [mkLine "m1" 5 ""].

Definition zeroDb : Db :=
  {| getShabad := λ id, if decide (id = Some "japji"%string) then Some japji else None;
     getShabadByOrderId := λ n, if decide (n = Some 1) then Some japji else Some mool;
     getBaniLines := λ _, None;
     getShabadRange := Some (0, 500) |}.

(** The resolution of the line id in the words of the specification, to
    compare [newLineId] with: the explicit [lineId] if present, else the id
    of the line of the active content whose order id is [lineOrderId]
    clamped into the content's range of order ids, else [null]. *)
Definition specLineId (content : Content) (payload : LinePayload)
  : option string :=
  match p_lineId payload with
  | Some id => Some id
  | None =>
      match head (lines content), last (lines content) with
      | Some first, Some lst =>
          match clamp (p_lineOrderId payload)
                  (line_orderId first) (line_orderId lst) with
          | Some n =>
              line_id <$> List.find (λ l, line_orderId l =? n) (lines content)
          | None => None
          end
      | _, _ => None
      end
  end.


(** The content-repository lookup of a selection event fails. *)
Definition lookup_fails (db : Db) (e : Event) : Prop :=
  match e with
  | EvShabad _ payload => lookupShabad db payload = None
  | EvBani _ baniId => getBaniLines db baniId = None
  | _ => False
  end.

(** What [getPublicSettings] does to one entry. *)
Definition redact (settings : JsVal) : JsVal :=
  if truthy (get_value settings privatePath) then JUndef else settings.

(** Scenarios C and D: "h3" stores a dark theme, "h4" stores settings flagged
    private. *)
Definition settingsServer : Server :=
  after scenarioDb (EvSettings "h4" {["local"%string := privateDark]})
    (after scenarioDb (EvSettings "h3" {["local"%string := dark]})
       connectedServer).

(** The session after the merge of [onSettings]. *)
Definition settingsApplied (host : string) (payload : gmap string JsVal)
    (s : Session) : Session :=
  {| bani := bani s; lineId := lineId s; shabad := shabad s;
     viewedLines := viewedLines s; mainLineId := mainLineId s;
     history := history s;
     settings := merge_all [settings s; restOf payload;
                            {[host := localOf payload]}];
     status := status s |}.

(** The part of a settings message that is the public view: everything but
    the fields [local] and [global]. *)
Definition publicPortion (msg : gmap string JsVal) : gmap string JsVal :=
  delete "global"%string (delete "local"%string msg).

(** ** The rest of the interface of [SessionManager] *)

(** The events handled one after the other, from the oldest. *)
Definition run (db : Db) (events : list Event) (σ : Server) : Server :=
  foldl (λ σ e, after db e σ) σ events.

(** The [state] object given to [set]: for each field of the session, the
    new value if the object has that key. *)
Record StatePatch : Type := mkStatePatch {
  new_bani : option (option Content);
  new_lineId : option (option string);
  new_shabad : option (option Content);
  new_viewedLines : option (list (option string));
  new_mainLineId : option (option string);
  new_history : option History.t;
  new_settings : option (gmap string JsVal);
  new_status : option (option string);
}.

(** [{}] *)
Definition noPatch : StatePatch :=
  mkStatePatch None None None None None None None None.

(** [{ ...this.session, ...state }] *)
Definition spread (s : Session) (state : StatePatch) : Session :=
  {| bani := default (bani s) (new_bani state);
     lineId := default (lineId s) (new_lineId state);
     shabad := default (shabad s) (new_shabad state);
     viewedLines := default (viewedLines s) (new_viewedLines state);
     mainLineId := default (mainLineId s) (new_mainLineId state);
     history := default (history s) (new_history state);
     settings := default (settings s) (new_settings state);
     status := default (status s) (new_status state) |}.

Module SessionManager.

(** [set( data = {} )], with [const { settings = {}, state = {} } = data]:
    [settings] is [JUndef] and [state] is [None] where [data] lacks them. *)
Definition set (settings : JsVal) (state : option StatePatch) : Handler unit :=
  let settings := match settings with
                  | JUndef => JObj []
                  | fragment => fragment
                  end in
  let state := default noPatch state in
  let* g := getGlobal in
  let* _ := setGlobal (settingsManager.merge g settings) in
  let* s := getSession in
  setSession (spread s state).

(** [get()]: [{ settings: settingsManager.get(), session: this.session }] *)
Definition get : Handler (JsVal * Session) :=
  let* g := getGlobal in
  let* s := getSession in
  ret (g, s).

End SessionManager.

(** The properties of the copy of an object. *)
Fixpoint copyFields (fs : list (string * JsVal)) : list (string * JsVal) :=
  match fs with
  | [] => []
  | (k, x) :: fs' =>
      if inherited k then copyFields fs' else (k, clone x) :: copyFields fs'
  end.

(** The value [mergeObject] gives a key that is not skipped: the source
    value [v] merged with, or replacing, what the target has under the key,
    or a copy of [v] where the target has nothing. *)
Definition mergedInto (t : option JsVal) (v : JsVal) : JsVal :=
  match t with
  | Some t' => if isMergeableObject v then deepmerge t' v else v
  | None => clone v
  end.

(** A value none of whose objects, at any depth outside arrays, has a key
    that names an inherited member: a copy of it is equal to it. *)
Fixpoint plain (v : JsVal) : bool :=
  match v with
  | JObj fs =>
      (fix all (fs : list (string * JsVal)) {struct fs} :=
         match fs with
         | [] => true
         | (k, x) :: fs' => negb (inherited k) && plain x && all fs'
         end) fs
  | _ => true
  end.



(** The object that holds [leaf] at the dotted [path] and nothing else, as in
    [{ security: { options: { private: true } } }]. *)
Fixpoint nested (path : list string) (leaf : JsVal) : JsVal :=
  match path with
  | [] => leaf
  | seg :: path' => JObj [(seg, nested path' leaf)]
  end.

Definition isObject (v : JsVal) : bool :=
  match v with JObj _ => true | _ => false end.

(** The settings messages among the messages, with their recipients. *)
Definition settingsMessages (ms : list Message)
  : list (string * gmap string JsVal) :=
  omap (λ m, match m with
             | SendJSON host event (PSettings o) =>
                 if String.eqb event "settings" then Some (host, o) else None
             | _ => None
             end) ms.

(** ** The controls of the navigator

    The handlers of [Navigator] and [Bar] in [Navigator.js]: each decides,
    from the properties of the component, which method of the controller to
    call; the call is the result, and a [TypeError] is [Threw]. *)
Module Navigator.

Inductive Call : Type :=
  | line (id : string)
  | previousShabad (orderId : Z)
  | nextShabad (orderId : Z)
  | previousLine (orderId : Z)
  | nextLine (orderId : Z).

Record Props : Type := mkProps {
  focused : option string;
  lineId : option string;
  shabad : option Content;
  bani : option Content;
}.

(** [shabad || bani] *)
Definition content (p : Props) : option Content :=
  match shabad p with
  | Some sh => Some sh
  | None => bani p
  end.

(** [a === line.id], [a] possibly [undefined] or [null]. *)
Definition isId (a : option string) (l : Line) : bool :=
  match a with
  | Some id => String.eqb id (line_id l)
  | None => false
  end.

(** [!bani] *)
Definition noBani (p : Props) : bool :=
  match bani p with
  | Some _ => false
  | None => true
  end.

Definition lift {A} (x : option A) : Outcome A :=
  match x with
  | Some a => Returned a
  | None => Threw
  end.

(** [jumpFirstLine] *)
Definition jumpFirstLine (p : Props) : Outcome Call :=
  match content p with
  | None => Threw
  | Some c =>
      match head (lines c) with
      | None => Threw
      | Some firstLine =>
          if noBani p && isId (focused p) firstLine
          then lift (previousShabad ∘ content_orderId <$> shabad p)
          else Returned (line (line_id firstLine))
      end
  end.

(** [jumpLastLine] *)
Definition jumpLastLine (p : Props) : Outcome Call :=
  match content p with
  | None => Threw
  | Some c =>
      match last (lines c) with
      | None => Threw
      | Some lastLine =>
          if noBani p && isId (focused p) lastLine
          then lift (nextShabad ∘ content_orderId <$> shabad p)
          else Returned (line (line_id lastLine))
      end
  end.

(** [lines.find( ( { id } ) => id === lineId )] *)
Definition currentLine (p : Props) (c : Content) : option Line :=
  List.find (isId (lineId p)) (lines c).

(** [onUpClick] of [Bar]; [None] where [Bar] renders nothing. *)
Definition onUpClick (p : Props) : option (Outcome Call) :=
  match content p with
  | None => None
  | Some c =>
      Some match head (lines c) with
           | None => Threw
           | Some firstLine =>
               if noBani p && isId (lineId p) firstLine
               then lift (previousShabad ∘ content_orderId <$> shabad p)
               else lift (previousLine ∘ line_orderId <$> currentLine p c)
           end
  end.

(** [onDownClick] of [Bar] *)
Definition onDownClick (p : Props) : option (Outcome Call) :=
  match content p with
  | None => None
  | Some c =>
      Some match last (lines c) with
           | None => Threw
           | Some lastLine =>
               if noBani p && isId (lineId p) lastLine
               then lift (nextShabad ∘ content_orderId <$> shabad p)
               else lift (nextLine ∘ line_orderId <$> currentLine p c)
           end
  end.

End Navigator.




(** * Properties *)

(** ** Running the handlers *)

Section Runs.

Variable σ : Server.

Lemma onLine_returns payload transition sh first lst :
  shabad (session σ) = Some sh →
  head (lines sh) = Some first →
  last (lines sh) = Some lst →
  let id := newLineId sh first lst payload in
  let viewed := set_add id (viewedLines (session σ)) in
  onLine payload transition σ =
    (Returned tt,
     {| session :=
          {| bani := bani (session σ); lineId := id;
             shabad := shabad (session σ); viewedLines := viewed;
             mainLineId := mainLineId (session σ);
             history := History.update (history (session σ))
                          (findLine id (lines sh))
                          (isTransitionOf transition id);
             settings := settings (session σ);
             status := status (session σ) |};
        globalSettings := globalSettings σ;
        clients := clients σ;
        sent := (sent σ ++ [Broadcast "line" (PLine id)])
                ++ [Broadcast "viewedLines" (PViewedLines viewed)] |}).
Proof.
  intros Hsh Hfirst Hlast id viewed.
  unfold onLine, bind, getSession, required; simpl.
  rewrite Hsh; simpl. rewrite Hfirst; simpl. rewrite Hlast; simpl.
  reflexivity.
Qed.

Lemma onLine_throws_without_shabad payload transition :
  shabad (session σ) = None →
  onLine payload transition σ = (Threw, σ).
Proof.
  intros Hsh. unfold onLine, bind, getSession, required; simpl.
  rewrite Hsh. reflexivity.
Qed.

Lemma onLine_throws_without_lines payload transition sh :
  shabad (session σ) = Some sh →
  lines sh = [] →
  onLine payload transition σ = (Threw, σ).
Proof.
  intros Hsh Hlines. unfold onLine, bind, getSession, required; simpl.
  rewrite Hsh; simpl. rewrite Hlines. reflexivity.
Qed.

End Runs.

Lemma onBani_throws_in_onLine σ db baniId b firstLine :
  getBaniLines db baniId = Some b →
  head (lines b) = Some firstLine →
  onBani db baniId σ =
    (Threw,
     {| session :=
          {| bani := Some b; lineId := lineId (session σ); shabad := None;
             viewedLines := []; mainLineId := mainLineId (session σ);
             history := history (session σ);
             settings := settings (session σ);
             status := status (session σ) |};
        globalSettings := globalSettings σ;
        clients := clients σ;
        sent := sent σ ++ [Broadcast "bani" (PContent (Some b))] |}).
Proof.
  intros Hb Hfirst. unfold onBani, bind at 1, required.
  rewrite Hb. unfold ret, bind at 1. rewrite Hfirst.
  unfold bind at 1, getSession. unfold bind at 1, setSession.
  unfold bind at 1, broadcast, emit. unfold bind at 1.
  rewrite onLine_throws_without_shabad; reflexivity.
Qed.

Lemma onBani_aborts σ db baniId :
  getBaniLines db baniId = None ∨
  (∃ b, getBaniLines db baniId = Some b ∧ lines b = []) →
  onBani db baniId σ = (Threw, σ).
Proof.
  intros [Hb | (b & Hb & Hlines)]; unfold onBani, bind, required; simpl;
    rewrite Hb; simpl; [reflexivity |].
  rewrite Hlines. reflexivity.
Qed.

Lemma onShabad_aborts σ db payload :
  lookupShabad db payload = None →
  onShabad db payload σ = (Threw, σ).
Proof.
  intros Hlookup. unfold onShabad, bind, required.
  rewrite Hlookup. reflexivity.
Qed.

Lemma set_add_nil x : set_add x [] = [x].
Proof.
  unfold set_add. destruct (decide (x ∈ [])) as [Hin | _]; [| reflexivity].
  exfalso. revert Hin. apply not_elem_of_nil.
Qed.

Lemma elem_of_set_add x s : x ∈ set_add x s.
Proof.
  unfold set_add. destruct (decide (x ∈ s)); [assumption |].
  apply elem_of_app. right. apply list_elem_of_singleton. reflexivity.
Qed.

Lemma onShabad_returns σ db payload sh first lst :
  lookupShabad db payload = Some sh →
  head (lines sh) = Some first →
  last (lines sh) = Some lst →
  let id := newLineId sh first lst (rest payload) in
  let h := History.update (history (session σ)) (findLine id (lines sh)) true in
  onShabad db payload σ =
    (Returned tt,
     {| session :=
          {| bani := None; lineId := id; shabad := Some sh;
             viewedLines := [id]; mainLineId := None; history := h;
             settings := settings (session σ);
             status := status (session σ) |};
        globalSettings := globalSettings σ;
        clients := clients σ;
        sent := (((sent σ ++ [Broadcast "shabad" (PContent (Some sh))])
                    ++ [Broadcast "line" (PLine id)])
                   ++ [Broadcast "viewedLines" (PViewedLines [id])])
                ++ [Broadcast "history"
                      (PHistory (History.getTransitionsOnly h))] |}).
Proof.
  intros Hlookup Hfirst Hlast id h.
  unfold onShabad, bind at 1, required. rewrite Hlookup.
  unfold ret, bind at 1, getSession. unfold bind at 1, setSession.
  unfold bind at 1, broadcast, emit. unfold bind at 1.
  erewrite onLine_returns by (simpl; eauto).
  simpl. rewrite set_add_nil. reflexivity.
Qed.

Lemma onShabad_throws_in_onLine σ db payload sh :
  lookupShabad db payload = Some sh →
  lines sh = [] →
  onShabad db payload σ =
    (Threw,
     {| session :=
          {| bani := None; lineId := lineId (session σ); shabad := Some sh;
             viewedLines := []; mainLineId := None;
             history := history (session σ);
             settings := settings (session σ);
             status := status (session σ) |};
        globalSettings := globalSettings σ;
        clients := clients σ;
        sent := sent σ ++ [Broadcast "shabad" (PContent (Some sh))] |}).
Proof.
  intros Hlookup Hlines.
  unfold onShabad, bind at 1, required. rewrite Hlookup.
  unfold ret, bind at 1, getSession. unfold bind at 1, setSession.
  unfold bind at 1, broadcast, emit. unfold bind at 1.
  erewrite onLine_throws_without_lines by (simpl; eauto).
  reflexivity.
Qed.

(** A non-empty sequence of lines has a first and a last line. *)
Lemma first_and_last (ls : list Line) :
  ls ≠ [] → ∃ first lst, head ls = Some first ∧ last ls = Some lst.
Proof.
  intros Hne. destruct ls as [|l ls]; [contradiction |].
  exists l. destruct (last (l :: ls)) as [lst|] eqn:Hlast.
  - exists lst. split; reflexivity.
  - apply last_None in Hlast. discriminate.
Qed.

(** What a failed lookup of [onShabad] is: the range is not available, or
    the fetch that the order id selects finds nothing. *)
Lemma lookupShabad_None db payload :
  lookupShabad db payload = None ↔
  getShabadRange db = None ∨
  (∃ lower upper, getShabadRange db = Some (lower, upper) ∧
     if num_truthy (shabadOrderId payload)
     then getShabadByOrderId db
            (or_null (clamp (shabadOrderId payload) lower upper)) = None
     else getShabad db (shabadId payload) = None).
Proof.
  unfold lookupShabad. destruct (getShabadRange db) as [[lower upper]|].
  - split.
    + intros H. right. exists lower, upper. split; [reflexivity |].
      destruct (shabadOrderId payload); try exact H;
        destruct (num_truthy _); exact H.
    + intros [H | (lo & up & Heq & H)]; [discriminate |].
      injection Heq as <- <-.
      destruct (shabadOrderId payload); try exact H;
        destruct (num_truthy _); exact H.
  - split; [intros _; left; reflexivity | reflexivity].
Qed.


(** ** Bani selection *)

(** C1 (the code departs from the claim).  Scenario A, the Bani "japji" with
    the lines l1 and l2 selected on a fresh server: the Bani is broadcast and
    stored, then [onLine] reads [shabad.lines] of a Shabad that was just set
    to [null] and throws.  No line, no viewed lines and no history are
    broadcast, the current line stays [null], the viewed lines stay empty
    and no history entry is appended. *)
Theorem onBani_scenario_A :
  handle scenarioDb (EvBani "remote" "japji") freshServer =
    (Threw,
     {| session :=
          {| bani := Some japji; lineId := None; shabad := None;
             viewedLines := []; mainLineId := None; history := [];
             settings := ∅; status := None |};
        globalSettings := JObj []; clients := [];
        sent := [Broadcast "bani" (PContent (Some japji))] |}).
Proof. reflexivity. Qed.

(** Whatever the Bani and the server, a Bani selection leaves the highlighted
    line as it was. *)
Lemma onBani_keeps_mainLineId db host baniId σ :
  mainLineId (session (after db (EvBani host baniId) σ)) =
  mainLineId (session σ).
Proof.
  unfold after; simpl.
  destruct (getBaniLines db baniId) as [b|] eqn:Hb.
  - destruct (head (lines b)) as [firstLine|] eqn:Hfirst.
    + rewrite (onBani_throws_in_onLine σ db baniId b firstLine Hb Hfirst).
      reflexivity.
    + rewrite onBani_aborts; [reflexivity |].
      right. exists b. split; [exact Hb |].
      destruct (lines b); [reflexivity | discriminate].
  - rewrite onBani_aborts; [reflexivity | left; exact Hb].
Qed.

(** C7 (the code departs from the claim).  With "l2" highlighted while the
    Shabad japji is shown, selecting the Bani "japji" clears the Shabad and
    the viewed lines but the highlighted line is still "l2": [onBani] has no
    [mainLineId: null], which [onShabad] has. *)
Theorem onBani_highlighted_line_survives :
  let σ := after scenarioDb (EvMainLine "remote" (Some "l2"%string)) japjiServer in
  let σ' := after scenarioDb (EvBani "remote" "japji") σ in
  shabad (session σ') = None ∧
  viewedLines (session σ') = [] ∧
  mainLineId (session σ) = Some "l2"%string ∧
  mainLineId (session σ') = Some "l2"%string.
Proof. repeat split. Qed.

(** ** Failed lookups *)

(** C8.  A Shabad or Bani selection whose lookup in the content repository
    fails throws with the server exactly as it was: no field of the session
    is changed and nothing is sent. *)
Theorem failed_lookup_aborts (db : Db) (e : Event) (σ : Server) :
  lookup_fails db e →
  handle db e σ = (Threw, σ).
Proof.
  destruct e; simpl; try contradiction.
  - apply onShabad_aborts.
  - intros Hb. apply onBani_aborts. left. exact Hb.
Qed.

Lemma failed_lookup_aborts_witness :
  lookup_fails scenarioDb (EvBani "remote" "sukhmani") ∧
  lookup_fails scenarioDb
    (EvShabad "remote"
       (mkShabadPayload (Some "zzz"%string) NumUndefined
          (mkLinePayload None NumUndefined))) ∧
  handle scenarioDb (EvBani "remote" "sukhmani") japjiServer
    = (Threw, japjiServer) ∧
  handle scenarioDb
    (EvShabad "remote"
       (mkShabadPayload (Some "zzz"%string) NumUndefined
          (mkLinePayload None NumUndefined))) japjiServer
    = (Threw, japjiServer).
Proof.
  split; [reflexivity |]. split; [reflexivity |]. split.
  - apply (failed_lookup_aborts scenarioDb (EvBani "remote" "sukhmani")).
    reflexivity.
  - apply (failed_lookup_aborts scenarioDb
             (EvShabad "remote"
                (mkShabadPayload (Some "zzz"%string) NumUndefined
                   (mkLinePayload None NumUndefined)))).
    reflexivity.
Defined.

(** ** Line selection *)

Lemma str_or_None_r a : str_or a None = None ↔ a = None ∨ a = Some ""%string.
Proof.
  destruct a as [x|]; simpl.
  - destruct (String.eqb x "") eqn:Hx.
    + apply String.eqb_eq in Hx. subst x. split; [right |]; reflexivity.
    + split; [discriminate |]. intros [H | H]; [discriminate |].
      injection H as ->. discriminate.
  - split; [left |]; reflexivity.
Qed.

Lemma newLineId_explicit sh first lst payload id :
  p_lineId payload = Some id → id ≠ ""%string →
  newLineId sh first lst payload = Some id.
Proof.
  intros Hid Hne. unfold newLineId. rewrite Hid. simpl.
  destruct (String.eqb id "") eqn:Heq; [| reflexivity].
  apply String.eqb_eq in Heq. contradiction.
Qed.

Lemma newLineId_ordinal sh first lst payload n :
  str_or (p_lineId payload) None = None →
  clamp (p_lineOrderId payload) (line_orderId first) (line_orderId lst)
    = Some n →
  n ≠ 0 →
  newLineId sh first lst payload =
    str_or (line_id <$> List.find (λ l, line_orderId l =? n) (lines sh)) None.
Proof.
  intros Hid Hclamp Hn. unfold newLineId, clampedLineOrderId.
  rewrite Hclamp.
  replace (or_null (Some n)) with (Some n)
    by (destruct n; [contradiction | reflexivity..]).
  apply str_or_None_r in Hid as [-> | ->]; reflexivity.
Qed.

Lemma newLineId_null sh first lst payload :
  str_or (p_lineId payload) None = None →
  clampedLineOrderId first lst payload = None →
  newLineId sh first lst payload = None.
Proof.
  intros Hid Hclamp. unfold newLineId. rewrite Hclamp.
  replace (List.find (λ _ : Line, false) (lines sh)) with (@None Line)
    by (induction (lines sh); simpl; congruence).
  apply str_or_None_r in Hid as [-> | ->]; reflexivity.
Qed.

(** The clamped order id lies in the range of the Shabad's order ids. *)
Lemma clamp_in_range number lower upper n :
  lower ≤ upper → clamp number lower upper = Some n → lower ≤ n ≤ upper.
Proof.
  intros Hle. unfold clamp. destruct (toNumber number) as [m|]; [| discriminate].
  intros [= <-].
  destruct (m <=? upper) eqn:Hup;
    [destruct (m >=? lower) eqn:Hlo | destruct (upper >=? lower) eqn:Hlo];
    lia.
Qed.

(** C2, as the code has it.  While a Shabad with at least one line is
    active, a line selection returns; the id it resolves is the [lineId] sent
    if there is one and it is not empty, else the id of the first line of
    the Shabad whose order id is the clamped [lineOrderId] provided that
    clamped value is a number other than 0, else [null]; it broadcasts that
    id and then the viewed lines, and appends exactly one History entry,
    flagged as a transition iff the hint is set or the id is [null]. *)
Theorem onLine_resolves_and_records
    (σ : Server) (payload : LinePayload) (transition : bool)
    (sh : Content) (first lst : Line) :
  shabad (session σ) = Some sh →
  head (lines sh) = Some first →
  last (lines sh) = Some lst →
  let σ' := snd (onLine payload transition σ) in
  let id := lineId (session σ') in
  fst (onLine payload transition σ) = Returned tt ∧
  (∀ x, p_lineId payload = Some x → x ≠ ""%string → id = Some x) ∧
  (str_or (p_lineId payload) None = None →
   ∀ n, clamp (p_lineOrderId payload) (line_orderId first) (line_orderId lst)
          = Some n →
        n ≠ 0 →
        id = str_or (line_id <$>
                       List.find (λ l, line_orderId l =? n) (lines sh)) None) ∧
  (str_or (p_lineId payload) None = None →
   or_null (clamp (p_lineOrderId payload)
              (line_orderId first) (line_orderId lst)) = None →
   id = None) ∧
  sent σ' = sent σ ++ [Broadcast "line" (PLine id);
                       Broadcast "viewedLines"
                         (PViewedLines (viewedLines (session σ')))] ∧
  history (session σ') =
    history (session σ)
      ++ [mkEntry (findLine id (lines sh))
            (transition || bool_decide (id = None))].
Proof.
  intros Hsh Hfirst Hlast σ' id. subst σ' id.
  rewrite (onLine_returns σ payload transition sh first lst Hsh Hfirst Hlast).
  simpl. split; [reflexivity |].
  split; [intros x Hx Hne; by apply newLineId_explicit |].
  split; [intros Hid n Hn Hne; by apply newLineId_ordinal |].
  split; [intros Hid Hn; by apply newLineId_null |].
  split; [by rewrite <- app_assoc |].
  unfold History.update, isTransitionOf.
  destruct (newLineId sh first lst payload); reflexivity.
Qed.

Lemma onLine_resolves_and_records_witness :
  shabad (session japjiServer) = Some japji ∧
  head (lines japji) = Some l1 ∧
  last (lines japji) = Some l2 ∧
  let σ' := snd (onLine (mkLinePayload None (Num 7)) false japjiServer) in
  fst (onLine (mkLinePayload None (Num 7)) false japjiServer) = Returned tt ∧
  lineId (session σ') = Some "l2"%string ∧
  sent σ' = [Broadcast "line" (PLine (lineId (session σ')));
             Broadcast "viewedLines" (PViewedLines (viewedLines (session σ')))] ∧
  History.getTransitionsOnly (history (session σ')) = [mkEntry (Some l1) true].
Proof.
  destruct (onLine_resolves_and_records japjiServer
              (mkLinePayload None (Num 7)) false japji l1 l2
              eq_refl eq_refl eq_refl)
    as (Hret & _ & Hordinal & _ & Hsent & Hhistory).
  split; [reflexivity |]. split; [reflexivity |]. split; [reflexivity |].
  intros σ'. split; [exact Hret |].
  assert (Hid : lineId (session σ') = Some "l2"%string)
    by (apply (Hordinal eq_refl 1 eq_refl); discriminate).
  split; [exact Hid |].
  split; [exact Hsent |].
  subst σ'. rewrite Hhistory, Hid. reflexivity.
Defined.

(** C2 as stated fails for an order id that clamps to 0.  With the Shabad
    japji active, whose first line l1 has the order id 0, a line event with
    [lineOrderId] 0 resolves to "l1" in the words of the claim; the handler
    resolves [null], broadcasts [null] and records a transition. *)
Lemma onLine_order_zero_counterexample :
  let payload := mkLinePayload None (Num 0) in
  let σ' := after scenarioDb (EvLine "remote" payload) japjiServer in
  specLineId japji payload = Some "l1"%string ∧
  lineId (session σ') = None ∧
  emitted scenarioDb (EvLine "remote" payload) japjiServer
    = [Broadcast "line" (PLine None);
       Broadcast "viewedLines" (PViewedLines [Some "l1"%string; None])] ∧
  lineId (session σ') ≠ specLineId japji payload.
Proof.
  simpl. split; [reflexivity |]. split; [reflexivity |].
  split; [reflexivity |]. discriminate.
Qed.

(** C10.  A Shabad event whose [shabadOrderId] is 0 or absent looks the
    Shabad up by [shabadId], wherever 0 lies with respect to the range of
    the repository, and that Shabad becomes the active one; and a line
    selection without [lineId] whose [lineOrderId] clamps to 0 resolves
    [null]. *)
Theorem zero_order_id_counts_as_absent :
  (∀ (db : Db) (payload : ShabadPayload) (bounds : Z * Z) (σ : Server),
     getShabadRange db = Some bounds →
     shabadOrderId payload = Num 0 ∨ shabadOrderId payload = NumNull
       ∨ shabadOrderId payload = NumUndefined →
     lookupShabad db payload = getShabad db (shabadId payload) ∧
     ∀ sh, getShabad db (shabadId payload) = Some sh →
           shabad (session (snd (onShabad db payload σ))) = Some sh) ∧
  (∀ (σ : Server) (payload : LinePayload) (transition : bool)
     (sh : Content) (first lst : Line),
     shabad (session σ) = Some sh →
     head (lines sh) = Some first →
     last (lines sh) = Some lst →
     p_lineId payload = None →
     clamp (p_lineOrderId payload) (line_orderId first) (line_orderId lst)
       = Some 0 →
     let σ' := snd (onLine payload transition σ) in
     fst (onLine payload transition σ) = Returned tt ∧
     lineId (session σ') = None ∧
     Broadcast "line" (PLine None) ∈ sent σ').
Proof.
  split.
  - intros db payload [lower upper] σ Hrange Hzero.
    assert (Hlookup : lookupShabad db payload = getShabad db (shabadId payload)).
    { unfold lookupShabad. rewrite Hrange.
      destruct Hzero as [-> | [-> | ->]]; reflexivity. }
    split; [exact Hlookup |].
    intros sh Hsh. rewrite <- Hlookup in Hsh.
    destruct (lines sh) as [|l ls] eqn:Hlines.
    + by rewrite (onShabad_throws_in_onLine σ db payload sh Hsh Hlines).
    + destruct (first_and_last (lines sh)) as (first & lst & Hfirst & Hlast);
        [by rewrite Hlines |].
      by rewrite (onShabad_returns σ db payload sh first lst Hsh Hfirst Hlast).
  - intros σ payload transition sh first lst Hsh Hfirst Hlast Hid Hclamp σ'.
    subst σ'.
    rewrite (onLine_returns σ payload transition sh first lst Hsh Hfirst Hlast).
    simpl.
    assert (Hnull : newLineId sh first lst payload = None).
    { apply newLineId_null.
      - by rewrite Hid.
      - unfold clampedLineOrderId. by rewrite Hclamp. }
    rewrite Hnull. split; [reflexivity |]. split; [reflexivity |].
    apply elem_of_app. left. apply elem_of_app. right.
    apply list_elem_of_singleton. reflexivity.
Qed.

Lemma zero_order_id_counts_as_absent_witness :
  let sp := mkShabadPayload (Some "japji"%string) (Num 0)
              (mkLinePayload None NumUndefined) in
  let lp := mkLinePayload None (Num (-3)) in
  (getShabadRange zeroDb = Some (0, 500) ∧
   getShabadByOrderId zeroDb (Some 0) = Some mool ∧
   lookupShabad zeroDb sp = Some japji ∧
   shabad (session (snd (onShabad zeroDb sp freshServer))) = Some japji) ∧
  (clamp (p_lineOrderId lp) (line_orderId l1) (line_orderId l2) = Some 0 ∧
   List.find (λ l, line_orderId l =? 0) (lines japji) = Some l1 ∧
   lineId (session (snd (onLine lp false japjiServer))) = None).
Proof.
  intros sp lp. split.
  - destruct (proj1 zero_order_id_counts_as_absent zeroDb sp (0, 500)
                freshServer eq_refl (or_introl eq_refl))
      as [Hlookup Hactive].
    split; [reflexivity |]. split; [reflexivity |].
    split; [exact Hlookup | exact (Hactive japji eq_refl)].
  - destruct (proj2 zero_order_id_counts_as_absent japjiServer lp false
                japji l1 l2 eq_refl eq_refl eq_refl eq_refl eq_refl)
      as (_ & Hnull & _).
    split; [reflexivity |]. split; [reflexivity | exact Hnull].
Defined.

(** ** Settings *)

Lemma getPublicSettings_lookup (s : Session) (host : string) :
  getPublicSettings s !! host = redact <$> settings s !! host.
Proof.
  unfold getPublicSettings. revert host.
  apply (map_fold_weak_ind
           (λ (acc m : gmap string JsVal), ∀ host, acc !! host = redact <$> m !! host)).
  - intros host. by rewrite !lookup_empty.
  - intros i x m acc Hi IH host. destruct (decide (i = host)) as [-> | Hne].
    + by rewrite !lookup_insert_eq.
    + rewrite !lookup_insert_ne by done. apply IH.
Qed.

Lemma json_lookup (o : gmap string JsVal) (k : string) :
  json o !! k = match o !! k with
                | Some v => if is_undef v then None else Some v
                | None => None
                end.
Proof.
  unfold json. rewrite map_lookup_filter.
  destruct (o !! k) as [v|]; simpl; [| reflexivity].
  destruct (is_undef v); reflexivity.
Qed.




(** The view has entries for stored hosts only. *)
Lemma public_view_no_other_hosts (s : Session) (host : string) :
  settings s !! host = None → getPublicSettings s !! host = None.
Proof. intros H. by rewrite getPublicSettings_lookup, H. Qed.



(** C6, as the code has it.  A disconnection of [host] returns without
    sending anything and binds the host's settings entry to [undefined]; the
    key stays.  In the public view computed next the key [host] is there
    too, bound to [undefined], so that reading it gives [undefined] and
    neither the stored settings nor the public view, as serialised, have the
    key [host]. *)
Theorem public_view_after_disconnect (db : Db) (host : string) (σ : Server) :
  let σ' := after db (Disconnection host) σ in
  handle db (Disconnection host) σ = (Returned tt, σ') ∧
  sent σ' = sent σ ∧
  settings (session σ') !! host = Some JUndef ∧
  getPublicSettings (session σ') !! host = Some JUndef ∧
  host ∈ dom (getPublicSettings (session σ')) ∧
  prop (getPublicSettings (session σ')) host = JUndef ∧
  json (settings (session σ')) !! host = None ∧
  json (getPublicSettings (session σ')) !! host = None.
Proof.
  assert (Hstored : settings (session (after db (Disconnection host) σ))
                      !! host = Some JUndef)
    by (unfold after; cbn; apply lookup_insert_eq).
  assert (Hpublic : getPublicSettings
                      (session (after db (Disconnection host) σ)) !! host
                    = Some JUndef)
    by (by rewrite getPublicSettings_lookup, Hstored).
  cbn zeta. split; [reflexivity |]. split; [reflexivity |].
  split; [exact Hstored |]. split; [exact Hpublic |].
  split; [apply elem_of_dom; by eexists |].
  unfold prop. rewrite !json_lookup, Hpublic, Hstored. by repeat split.
Qed.

(** C6 as stated fails: after the disconnection of "h3" the public view
    still has the key "h3", bound to [undefined]. *)
Lemma public_view_after_disconnect_counterexample :
  let σ' := after scenarioDb (Disconnection "h3") settingsServer in
  getPublicSettings (session settingsServer) !! "h3"%string = Some dark ∧
  getPublicSettings (session σ') !! "h3"%string = Some JUndef ∧
  "h3"%string ∈ dom (getPublicSettings (session σ')).
Proof.
  split; [vm_compute; reflexivity |]. split; [vm_compute; reflexivity |].
  apply elem_of_dom. exists JUndef. vm_compute. reflexivity.
Qed.

Lemma forEach_sendJSON (F : Session → JsVal → string → Payload)
    (event : string) (hosts : list string) (σ : Server) :
  forEach (λ host,
             let* s := getSession in
             let* g := getGlobal in
             sendJSON host event (F s g host)) hosts σ =
    (Returned tt,
     {| session := session σ; globalSettings := globalSettings σ;
        clients := clients σ;
        sent := sent σ
                ++ ((λ host, SendJSON host event
                               (F (session σ) (globalSettings σ) host))
                      <$> hosts) |}).
Proof.
  revert σ. induction hosts as [|host hosts IH]; intros σ; simpl.
  - unfold ret. rewrite app_nil_r. by destruct σ.
  - unfold bind at 1. unfold bind at 1, getSession.
    unfold bind at 1, getGlobal. unfold sendJSON, emit.
    rewrite IH. simpl. by rewrite <- app_assoc.
Qed.

Lemma onSettings_returns (host : string) (payload : gmap string JsVal)
    (σ : Server) :
  let s' := settingsApplied host payload (session σ) in
  let g' := settingsManager.merge (globalSettings σ) (globalOf payload) in
  onSettings host payload σ =
    (Returned tt,
     {| session := s'; globalSettings := g'; clients := clients σ;
        sent := sent σ
                ++ ((λ h, SendJSON h "settings"
                            (PSettings
                               (settingsMessage (getPublicSettings s') s' g' h)))
                      <$> clients σ) |}).
Proof.
  intros s' g'. unfold onSettings.
  unfold bind at 1, getGlobal. unfold bind at 1, setGlobal.
  unfold bind at 1, getSession. unfold bind at 1, setSession.
  unfold bind at 1. unfold bind at 1, getClients.
  rewrite (forEach_sendJSON
             (λ s g h, PSettings (settingsMessage (getPublicSettings s') s g h))).
  reflexivity.
Qed.

Lemma settingsMessage_spec publicSettings s g host :
  let msg := settingsMessage publicSettings s g host in
  json (publicPortion msg) !! host = None ∧
  msg !! "local"%string = Some (prop (settings s) host) ∧
  msg !! "global"%string = Some g ∧
  ∀ k, k ≠ host → publicPortion msg !! k = publicPortion publicSettings !! k.
Proof.
  unfold settingsMessage, publicPortion. simpl. repeat split.
  - rewrite json_lookup.
    destruct (decide ("global"%string = host)) as [<- | Hg];
      [by rewrite lookup_delete_eq |].
    rewrite lookup_delete_ne by done.
    destruct (decide ("local"%string = host)) as [<- | Hl];
      [by rewrite lookup_delete_eq |].
    rewrite lookup_delete_ne, !lookup_insert_ne, lookup_insert_eq by done.
    reflexivity.
  - rewrite lookup_insert_ne by done. by rewrite lookup_insert_eq.
  - by rewrite lookup_insert_eq.
  - intros k Hk.
    destruct (decide ("global"%string = k)) as [<- | Hg];
      [by rewrite !lookup_delete_eq |].
    rewrite !(lookup_delete_ne _ "global"%string) by done.
    destruct (decide ("local"%string = k)) as [<- | Hl];
      [by rewrite !lookup_delete_eq |].
    rewrite !lookup_delete_ne, !lookup_insert_ne by done. reflexivity.
Qed.

(** C4.  After a settings event from the connected client of [host], a
    settings message is sent to that client, and every settings message sent
    to it has no entry for [host] in its public-view portion, which is
    otherwise the public view; has the settings stored for [host] under
    [local]; and has the global settings, as they are now, under [global]. *)
Theorem settings_message_to_sender
    (db : Db) (host : string) (payload : gmap string JsVal) (σ : Server) :
  host ∈ clients σ →
  let σ' := after db (EvSettings host payload) σ in
  (∃ msg, SendJSON host "settings" (PSettings msg)
            ∈ emitted db (EvSettings host payload) σ) ∧
  ∀ msg, SendJSON host "settings" (PSettings msg)
           ∈ emitted db (EvSettings host payload) σ →
    json (publicPortion msg) !! host = None ∧
    msg !! "local"%string = Some (prop (settings (session σ')) host) ∧
    msg !! "global"%string = Some (globalSettings σ') ∧
    ∀ k, k ≠ host →
         publicPortion msg !! k
         = publicPortion (getPublicSettings (session σ')) !! k.
Proof.
  intros Hin σ'. subst σ'. unfold emitted, after. simpl.
  rewrite onSettings_returns. simpl. rewrite drop_app_length. split.
  - eexists. apply list_elem_of_fmap. exists host. split; [reflexivity | done].
  - intros msg Hmsg. apply list_elem_of_fmap in Hmsg as (h & Heq & _).
    injection Heq as <- ->. apply settingsMessage_spec.
Qed.

Lemma settings_message_to_sender_witness :
  "h3"%string ∈ clients connectedServer ∧
  ∃ msg,
    SendJSON "h3" "settings" (PSettings msg)
      ∈ emitted scenarioDb (EvSettings "h3" {["local"%string := dark]})
          connectedServer ∧
    json (publicPortion msg) !! "h3"%string = None ∧
    msg !! "local"%string = Some dark ∧
    msg !! "global"%string
      = Some (JObj [("launchOnStartup"%string, JBool false)]).
Proof.
  assert (Hin : "h3"%string ∈ clients connectedServer)
    by (apply list_elem_of_In; simpl; auto).
  split; [exact Hin |].
  destruct (settings_message_to_sender scenarioDb "h3"
              {["local"%string := dark]} connectedServer Hin)
    as [[msg Hmsg] Hall].
  exists msg. split; [exact Hmsg |].
  destruct (Hall msg Hmsg) as (Hown & Hlocal & Hglobal & _).
  split; [exact Hown |]. split; [exact Hlocal | exact Hglobal].
Defined.

(** ** Connection *)

Lemma synchronise_returns (host : string) (σ : Server) :
  let s := session σ in
  synchronise host σ =
    (Returned tt,
     {| session := s; globalSettings := globalSettings σ;
        clients := clients σ;
        sent := sent σ
                ++ [match bani s with
                    | Some b => SendJSON host "bani" (PContent (Some b))
                    | None => SendJSON host "shabad" (PContent (shabad s))
                    end;
                    SendJSON host "line" (PLine (lineId s));
                    SendJSON host "viewedLines" (PViewedLines (viewedLines s));
                    SendJSON host "mainLine" (PLine (mainLineId s));
                    SendJSON host "status" (PStatus (status s));
                    SendJSON host "history"
                      (PHistory (History.getTransitionsOnly (history s)));
                    SendJSON host "settings"
                      (PSettings (getPublicSettings s))] |}).
Proof.
  intros s. subst s. unfold synchronise, bind, getSession, sendJSON, emit.
  simpl. destruct (bani (session σ)); simpl;
    repeat rewrite <- app_assoc; reflexivity.
Qed.

(** C9 (the code departs from the claim).  With the settings of Scenarios C
    and D stored, the client of "h3" connects.  The seven messages go to
    that client only and in the order claimed, Bani before Shabad, but the
    last one carries the public view as it is: the entry of "h3" is in it
    under the key "h3", and it has neither a [local] nor a [global] field.
    It is not the message [onSettings] builds for that client. *)
Theorem synchronise_sends_plain_public_view :
  let σ := settingsServer in
  let s := session σ in
  emitted scenarioDb (Connection "h3") σ =
    [SendJSON "h3" "shabad" (PContent None);
     SendJSON "h3" "line" (PLine None);
     SendJSON "h3" "viewedLines" (PViewedLines []);
     SendJSON "h3" "mainLine" (PLine None);
     SendJSON "h3" "status" (PStatus None);
     SendJSON "h3" "history" (PHistory []);
     SendJSON "h3" "settings" (PSettings (getPublicSettings s))] ∧
  getPublicSettings s !! "h3"%string = Some dark ∧
  getPublicSettings s !! "local"%string = None ∧
  getPublicSettings s !! "global"%string = None ∧
  settingsMessage (getPublicSettings s) s (globalSettings σ) "h3"
    !! "local"%string = Some dark ∧
  getPublicSettings s
    ≠ settingsMessage (getPublicSettings s) s (globalSettings σ) "h3".
Proof.
  simpl. split; [vm_compute; reflexivity |].
  split; [vm_compute; reflexivity |].
  split; [vm_compute; reflexivity |].
  split; [vm_compute; reflexivity |].
  split; [vm_compute; reflexivity |].
  intros Heq.
  apply (f_equal (λ o : gmap string JsVal, o !! "local"%string)) in Heq.
  vm_compute in Heq. discriminate Heq.
Qed.

(** ** Viewed lines *)







(** * Further properties of the handlers *)

(** ** Shabad selection *)

(** lodash's [clamp] is the usual one, the lower bound winning where the
    bounds cross. *)
Lemma clamp_max_min (number : JsNum) (n lower upper : Z) :
  toNumber number = Some n →
  clamp number lower upper = Some (Z.max lower (Z.min n upper)).
Proof.
  intros Hn. unfold clamp. rewrite Hn. f_equal.
  destruct (n <=? upper) eqn:Hup;
    [destruct (n >=? lower) eqn:Hlo | destruct (upper >=? lower) eqn:Hlo];
    lia.
Qed.

(** A Shabad selection that finds a Shabad with lines returns.  It stores the
    Shabad, clears the Bani and the highlighted line, and leaves exactly the
    resolved line viewed; it appends one entry to the history, flagged as a
    transition; and it broadcasts, in this order, the Shabad, the line, the
    viewed lines and the transitions of the history, the new entry last. *)
Theorem onShabad_broadcasts_in_order
    (db : Db) (host : string) (payload : ShabadPayload) (σ : Server)
    (sh : Content) :
  lookupShabad db payload = Some sh →
  lines sh ≠ [] →
  let e := EvShabad host payload in
  let s' := session (after db e σ) in
  let entry := mkEntry (findLine (lineId s') (lines sh)) true in
  fst (handle db e σ) = Returned tt ∧
  shabad s' = Some sh ∧ bani s' = None ∧ mainLineId s' = None ∧
  viewedLines s' = [lineId s'] ∧
  history s' = history (session σ) ++ [entry] ∧
  emitted db e σ =
    [Broadcast "shabad" (PContent (Some sh));
     Broadcast "line" (PLine (lineId s'));
     Broadcast "viewedLines" (PViewedLines [lineId s']);
     Broadcast "history"
       (PHistory (History.getTransitionsOnly (history (session σ)) ++ [entry]))].
Proof.
  intros Hlookup Hlines e s' entry. subst e s' entry.
  destruct (first_and_last (lines sh) Hlines) as (first & lst & Hfirst & Hlast).
  unfold emitted, after. cbn [handle].
  rewrite (onShabad_returns σ db payload sh first lst Hlookup Hfirst Hlast).
  cbn [fst snd session sent shabad bani mainLineId viewedLines history lineId].
  repeat (split; [reflexivity |]).
  rewrite <- !app_assoc, drop_app_length.
  unfold History.update, History.getTransitionsOnly.
  rewrite List.filter_app. reflexivity.
Qed.

Lemma onShabad_broadcasts_in_order_witness :
  let payload := mkShabadPayload (Some "japji"%string) NumUndefined
                   (mkLinePayload (Some "l2"%string) NumUndefined) in
  let e := EvShabad "remote" payload in
  lookupShabad scenarioDb payload = Some japji ∧
  lines japji ≠ [] ∧
  emitted scenarioDb e japjiServer =
    [Broadcast "shabad" (PContent (Some japji));
     Broadcast "line" (PLine (Some "l2"%string));
     Broadcast "viewedLines" (PViewedLines [Some "l2"%string]);
     Broadcast "history"
       (PHistory [mkEntry (Some l1) true; mkEntry (Some l2) true])].
Proof.
  intros payload e.
  assert (Hlines : lines japji ≠ []) by discriminate.
  split; [reflexivity |]. split; [exact Hlines |].
  destruct (onShabad_broadcasts_in_order scenarioDb "remote" payload
              japjiServer japji eq_refl Hlines)
    as (_ & _ & _ & _ & _ & _ & Hemitted).
  exact Hemitted.
Defined.

(** A Shabad selection that finds a Shabad without lines is left half done:
    the Shabad is stored and broadcast, the Bani, the highlighted line and
    the viewed lines are cleared, and then the handler throws; the current
    line and the history are those of before and no other message is
    sent. *)
Theorem onShabad_without_lines_throws_late
    (db : Db) (host : string) (payload : ShabadPayload) (σ : Server)
    (sh : Content) :
  lookupShabad db payload = Some sh →
  lines sh = [] →
  let e := EvShabad host payload in
  let s := session σ in
  let s' := session (after db e σ) in
  fst (handle db e σ) = Threw ∧
  shabad s' = Some sh ∧ bani s' = None ∧ mainLineId s' = None ∧
  viewedLines s' = [] ∧
  lineId s' = lineId s ∧ history s' = history s ∧
  emitted db e σ = [Broadcast "shabad" (PContent (Some sh))].
Proof.
  intros Hlookup Hlines e s s'. subst e s s'. unfold emitted, after.
  cbn [handle].
  rewrite (onShabad_throws_in_onLine σ db payload sh Hlookup Hlines).
  cbn [fst snd session sent shabad bani mainLineId viewedLines history lineId].
  repeat (split; [reflexivity |]). by rewrite drop_app_length.
Qed.

Lemma onShabad_without_lines_throws_late_witness :
  let empty := mkContent "empty" 7 [] in
  let db := mkDb (λ _, Some empty) (λ _, None) (λ _, None) (Some (1, 500)) in
  let payload := mkShabadPayload (Some "empty"%string) NumUndefined
                   (mkLinePayload None NumUndefined) in
  lookupShabad db payload = Some empty ∧
  lines empty = [] ∧
  fst (handle db (EvShabad "remote" payload) japjiServer) = Threw ∧
  shabad (session (after db (EvShabad "remote" payload) japjiServer))
    = Some empty ∧
  lineId (session (after db (EvShabad "remote" payload) japjiServer))
    = Some "l1"%string.
Proof.
  intros empty db payload.
  destruct (onShabad_without_lines_throws_late db "remote" payload
              japjiServer empty eq_refl eq_refl)
    as (Hthrew & Hshabad & _ & _ & _ & Hline & _).
  split; [reflexivity |]. split; [reflexivity |].
  split; [exact Hthrew |]. split; [exact Hshabad | exact Hline].
Defined.

(** An order id other than 0 fetches the Shabad by the order id clamped into
    the range of the repository, whatever [shabadId] is; where the clamped
    order id is 0 the fetch is given [null]. *)
Theorem onShabad_fetches_by_clamped_order_id
    (db : Db) (payload : ShabadPayload) (n lower upper : Z) :
  getShabadRange db = Some (lower, upper) →
  shabadOrderId payload = Num n →
  n ≠ 0 →
  let m := Z.max lower (Z.min n upper) in
  lookupShabad db payload =
    getShabadByOrderId db (if decide (m = 0) then None else Some m) ∧
  (lower ≤ upper → lower ≤ m ≤ upper) ∧
  (lower ≤ n ≤ upper → m = n).
Proof.
  intros Hrange Hn Hne m. subst m. split; [| lia].
  unfold lookupShabad. rewrite Hrange, Hn. unfold num_truthy.
  replace (n =? 0) with false by lia. cbv beta iota zeta. cbn [negb].
  rewrite (clamp_max_min (Num n) n lower upper eq_refl).
  destruct (decide (Z.max lower (Z.min n upper) = 0)) as [-> | Hm];
    [reflexivity |].
  destruct (Z.max lower (Z.min n upper)); [contradiction | reflexivity..].
Qed.

Lemma onShabad_fetches_by_clamped_order_id_witness :
  let payload n := mkShabadPayload (Some "japji"%string) (Num n)
                     (mkLinePayload None NumUndefined) in
  getShabadRange scenarioDb = Some (1, 500) ∧
  lookupShabad scenarioDb (payload 9999)
    = getShabadByOrderId scenarioDb (Some 500) ∧
  getShabadRange zeroDb = Some (0, 500) ∧
  lookupShabad zeroDb (payload (-4)) = getShabadByOrderId zeroDb None.
Proof.
  intros payload.
  destruct (onShabad_fetches_by_clamped_order_id scenarioDb (payload 9999)
              9999 1 500 eq_refl eq_refl) as [Hhigh _]; [discriminate |].
  destruct (onShabad_fetches_by_clamped_order_id zeroDb (payload (-4))
              (-4) 0 500 eq_refl eq_refl) as [Hlow _]; [discriminate |].
  split; [reflexivity |]. split; [exact Hhigh |].
  split; [reflexivity | exact Hlow].
Defined.

(** ** Line selection *)

(** A line event needs an active Shabad with lines: without one, and so
    while a Bani is shown or before anything is selected, the handler throws
    with the server as it was and nothing sent. *)
Theorem onLine_throws_without_shabad_lines
    (db : Db) (host : string) (payload : LinePayload) (σ : Server) :
  shabad (session σ) = None ∨
  (∃ sh, shabad (session σ) = Some sh ∧ lines sh = []) →
  handle db (EvLine host payload) σ = (Threw, σ).
Proof.
  intros [Hnone | (sh & Hsh & Hlines)]; cbn [handle].
  - by apply onLine_throws_without_shabad.
  - by apply (onLine_throws_without_lines σ payload false sh).
Qed.

Lemma onLine_throws_without_shabad_lines_witness :
  let σ := after scenarioDb (EvBani "remote" "japji") freshServer in
  let e := EvLine "remote" (mkLinePayload (Some "l2"%string) NumUndefined) in
  bani (session σ) = Some japji ∧
  shabad (session σ) = None ∧
  handle scenarioDb e σ = (Threw, σ).
Proof.
  intros σ e. split; [reflexivity |]. split; [reflexivity |].
  apply (onLine_throws_without_shabad_lines scenarioDb "remote").
  left. reflexivity.
Defined.

Lemma find_head {A} (f : A → bool) (l : list A) (x : A) :
  head l = Some x → f x = true → List.find f l = Some x.
Proof.
  destruct l as [|y l]; [discriminate |]. intros [= ->] Hf. simpl.
  by rewrite Hf.
Qed.

Lemma find_member {A} (f : A → bool) (l : list A) (x : A) :
  x ∈ l → f x = true → ∃ y, List.find f l = Some y ∧ y ∈ l ∧ f y = true.
Proof.
  intros Hin Hf. destruct (List.find f l) as [y|] eqn:Hfind.
  - exists y. apply find_some in Hfind as [Hy Hfy].
    split; [reflexivity |]. split; [by apply list_elem_of_In | exact Hfy].
  - apply list_elem_of_In in Hin.
    rewrite (find_none f l Hfind x Hin) in Hf. discriminate.
Qed.

Lemma str_or_nonempty (x : string) (b : option string) :
  x ≠ ""%string → str_or (Some x) b = Some x.
Proof.
  intros Hne. simpl. destruct (String.eqb x "") eqn:Heq; [| reflexivity].
  apply String.eqb_eq in Heq. contradiction.
Qed.

(** Navigation by order id stops at the ends.  On a Shabad whose first order
    id is not above its last and whose line ids are not empty, a line event
    without [lineId] whose [lineOrderId] is at or before the first order id
    selects the first line, and one at or past the last order id selects a
    line with the last order id, unless the order id of that end is 0.  A
    [lineOrderId] of [null] counts as 0 here. *)
Theorem onLine_order_id_stops_at_the_ends
    (db : Db) (host : string) (payload : LinePayload) (σ : Server)
    (sh : Content) (first lst : Line) (n : Z) :
  shabad (session σ) = Some sh →
  head (lines sh) = Some first →
  last (lines sh) = Some lst →
  p_lineId payload = None →
  toNumber (p_lineOrderId payload) = Some n →
  line_orderId first ≤ line_orderId lst →
  Forall (λ l, line_id l ≠ ""%string) (lines sh) →
  let id := lineId (session (after db (EvLine host payload) σ)) in
  (n ≤ line_orderId first → line_orderId first ≠ 0 →
     id = Some (line_id first)) ∧
  (line_orderId lst ≤ n → line_orderId lst ≠ 0 →
     ∃ l, l ∈ lines sh ∧ line_orderId l = line_orderId lst ∧
          id = Some (line_id l)).
Proof.
  intros Hsh Hfirst Hlast Hid Hn Hle Hids id. subst id.
  unfold after. cbn [handle].
  rewrite (onLine_returns σ payload false sh first lst Hsh Hfirst Hlast).
  cbn [snd session lineId].
  unfold newLineId, clampedLineOrderId.
  rewrite Hid, (clamp_max_min _ n _ _ Hn).
  assert (Hor : ∀ m, m ≠ 0 → or_null (Some m) = Some m)
    by (intros [| |] ?; [contradiction | reflexivity..]).
  split.
  - intros Hlow Hne.
    replace (Z.max (line_orderId first) (Z.min n (line_orderId lst)))
      with (line_orderId first) by lia.
    rewrite (Hor _ Hne).
    rewrite (find_head _ (lines sh) first Hfirst) by apply Z.eqb_refl.
    cbn [fmap option_fmap option_map str_or].
    apply str_or_nonempty.
    rewrite Forall_forall in Hids. apply Hids.
    destruct (lines sh); [discriminate |]. injection Hfirst as ->.
    apply list_elem_of_here.
  - intros Hhigh Hne.
    replace (Z.max (line_orderId first) (Z.min n (line_orderId lst)))
      with (line_orderId lst) by lia.
    rewrite (Hor _ Hne).
    assert (Hin : lst ∈ lines sh).
    { apply last_Some in Hlast as [l' ->]. apply elem_of_app. right.
      apply list_elem_of_singleton. reflexivity. }
    destruct (find_member (λ l, line_orderId l =? line_orderId lst)
                (lines sh) lst Hin (Z.eqb_refl _))
      as (l & Hfind & Hl & Heq).
    exists l. split; [exact Hl |]. split; [lia |].
    rewrite Hfind. cbn [fmap option_fmap option_map str_or].
    apply str_or_nonempty.
    rewrite Forall_forall in Hids. by apply Hids.
Qed.

Lemma onLine_order_id_stops_at_the_ends_witness :
  let sohila := mkContent "sohila" 3 [mkLine "s1" 5 ""; mkLine "s2" 6 ""] in
  let σ := mkServer
             (mkSession None None (Some sohila) [] None [] ∅ None)
             (JObj []) [] [] in
  let before := mkLinePayload None NumNull in
  let beyond := mkLinePayload None (Num 99) in
  toNumber (p_lineOrderId before) = Some 0 ∧
  lineId (session (after scenarioDb (EvLine "remote" before) σ))
    = Some "s1"%string ∧
  ∃ l, l ∈ lines sohila ∧ line_orderId l = 6 ∧
       lineId (session (after scenarioDb (EvLine "remote" beyond) σ))
         = Some (line_id l).
Proof.
  intros sohila σ before beyond.
  assert (Hids : Forall (λ l, line_id l ≠ ""%string) (lines sohila))
    by (repeat constructor; discriminate).
  assert (Hle : 5 ≤ 6) by lia.
  destruct (onLine_order_id_stops_at_the_ends scenarioDb "remote" before σ
              sohila (mkLine "s1" 5 "") (mkLine "s2" 6 "") 0
              eq_refl eq_refl eq_refl eq_refl eq_refl Hle Hids)
    as [Hlow _].
  destruct (onLine_order_id_stops_at_the_ends scenarioDb "remote" beyond σ
              sohila (mkLine "s1" 5 "") (mkLine "s2" 6 "") 99
              eq_refl eq_refl eq_refl eq_refl eq_refl Hle Hids)
    as [_ Hhigh].
  split; [reflexivity |]. split.
  - apply Hlow; [simpl; lia | discriminate].
  - apply Hhigh; [simpl; lia | discriminate].
Defined.

Lemma set_add_idem (x : option string) (s : list (option string)) :
  set_add x (set_add x s) = set_add x s.
Proof.
  unfold set_add at 1.
  destruct (decide (x ∈ set_add x s)) as [_ | Hnot]; [reflexivity |].
  exfalso. apply Hnot, elem_of_set_add.
Qed.

Lemma drop_two {A} (l : list A) (a b : A) :
  drop (length l) ((l ++ [a]) ++ [b]) = [a; b].
Proof. by rewrite <- app_assoc, drop_app_length. Qed.

(** The same line event a second time changes neither the current line nor
    the viewed lines and broadcasts the same two messages again, but it
    appends a second entry to the history. *)
Theorem onLine_repeated
    (db : Db) (host : string) (payload : LinePayload) (σ : Server)
    (sh : Content) :
  shabad (session σ) = Some sh →
  lines sh ≠ [] →
  let e := EvLine host payload in
  let σ1 := after db e σ in
  let σ2 := after db e σ1 in
  lineId (session σ2) = lineId (session σ1) ∧
  viewedLines (session σ2) = viewedLines (session σ1) ∧
  emitted db e σ1 = emitted db e σ ∧
  length (history (session σ2)) = S (length (history (session σ1))).
Proof.
  intros Hsh Hlines e σ1 σ2. subst σ2 σ1 e.
  destruct (first_and_last (lines sh) Hlines) as (first & lst & Hfirst & Hlast).
  unfold emitted, after. cbn [handle].
  rewrite (onLine_returns σ payload false sh first lst Hsh Hfirst Hlast).
  cbn [snd].
  erewrite onLine_returns by (cbn [session shabad]; eauto).
  cbn [snd session sent lineId viewedLines history].
  rewrite set_add_idem, !drop_two.
  repeat split. unfold History.update. rewrite !length_app. simpl. lia.
Qed.

Lemma onLine_repeated_witness :
  let e := EvLine "remote" (mkLinePayload (Some "l2"%string) NumUndefined) in
  let σ1 := after scenarioDb e japjiServer in
  let σ2 := after scenarioDb e σ1 in
  shabad (session japjiServer) = Some japji ∧
  lines japji ≠ [] ∧
  viewedLines (session σ2) = viewedLines (session σ1) ∧
  length (history (session σ2)) = S (length (history (session σ1))).
Proof.
  intros e σ1 σ2.
  assert (Hlines : lines japji ≠ []) by discriminate.
  destruct (onLine_repeated scenarioDb "remote"
              (mkLinePayload (Some "l2"%string) NumUndefined)
              japjiServer japji eq_refl Hlines)
    as (_ & Hviewed & _ & Hhistory).
  split; [reflexivity |]. split; [exact Hlines |].
  split; [exact Hviewed | exact Hhistory].
Defined.

(** ** Merging *)

Lemma JsVal_fields_ind (P : JsVal → Prop) :
  P JUndef → P JNull → (∀ b, P (JBool b)) → (∀ n, P (JNum n)) →
  (∀ s, P (JStr s)) → (∀ items, P (JArr items)) →
  (∀ fs, Forall (λ kv, P kv.2) fs → P (JObj fs)) →
  ∀ v, P v.
Proof.
  intros Hundef Hnull Hbool Hnum Hstr Harr Hobj.
  fix IH 1. intros [| |b|n|s|items|fs].
  - exact Hundef.
  - exact Hnull.
  - exact (Hbool b).
  - exact (Hnum n).
  - exact (Hstr s).
  - exact (Harr items).
  - apply Hobj.
    exact ((fix all (fs : list (string * JsVal))
              : Forall (λ kv, P kv.2) fs :=
              match fs with
              | [] => List.Forall_nil _
              | kv :: fs' =>
                  @List.Forall_cons _ _ kv fs' (IH kv.2) (all fs')
              end) fs).
Qed.

Lemma clone_object (fs : list (string * JsVal)) :
  clone (JObj fs) = JObj (copyFields fs).
Proof.
  reflexivity.
Qed.

Lemma plain_object (k : string) (x : JsVal) (fs : list (string * JsVal)) :
  plain (JObj ((k, x) :: fs))
  = negb (inherited k) && plain x && plain (JObj fs).
Proof. reflexivity. Qed.

(** A copy of a plain value is equal to it. *)
Lemma clone_plain (v : JsVal) : plain v = true → clone v = v.
Proof.
  induction v as [| | | | | |fs IH] using JsVal_fields_ind; try reflexivity.
  intros Hplain. rewrite clone_object. f_equal.
  induction IH as [|[k x] fs Hx _ IHfs]; [reflexivity |].
  rewrite plain_object in Hplain.
  apply andb_prop in Hplain as [Hplain Hfs].
  apply andb_prop in Hplain as [Hk Hplain].
  simpl. destruct (inherited k); [discriminate |].
  simpl in Hx. by rewrite (Hx Hplain), (IHfs Hfs).
Qed.

(** A copy is plain, so copying twice is copying once. *)
Lemma plain_clone (v : JsVal) : plain (clone v) = true.
Proof.
  induction v as [| | | | | |fs IH] using JsVal_fields_ind; try reflexivity.
  rewrite clone_object.
  induction IH as [|[k x] fs Hx _ IHfs]; [reflexivity |].
  simpl copyFields. destruct (inherited k) eqn:Hk; [exact IHfs |].
  rewrite plain_object, Hk. simpl in Hx. by rewrite Hx, IHfs.
Qed.

Lemma clone_idem (v : JsVal) : clone (clone v) = clone v.
Proof. apply clone_plain, plain_clone. Qed.

Lemma cloneFields_plain (fs : list (string * JsVal)) :
  plain (JObj fs) = true → cloneFields fs = fs.
Proof.
  induction fs as [|[k x] fs IH]; [reflexivity |].
  rewrite plain_object. intros Hplain.
  apply andb_prop in Hplain as [Hplain Hfs].
  apply andb_prop in Hplain as [_ Hx].
  unfold cloneFields in *. simpl. by rewrite (clone_plain x Hx), (IH Hfs).
Qed.

(** Merged into what is no object, or into nothing, a plain value is taken
    as it is. *)
Lemma mergedInto_undefined (t : option JsVal) (v : JsVal) :
  default JUndef t = JUndef → plain v = true → mergedInto t v = v.
Proof.
  intros Ht Hplain. destruct t as [t|]; [| by apply clone_plain].
  simpl in Ht. subst t. simpl.
  destruct v as [| |b|n|s|items|fs]; try reflexivity.
  simpl. by rewrite cloneFields_plain.
Qed.

Lemma mergeKey_mergedInto (t : option JsVal) (k : string) (v : JsVal) :
  inherited k = false → mergeKey t k v = Some (mergedInto t v).
Proof. intros Hk. destruct t; simpl; [reflexivity | by rewrite Hk]. Qed.

Lemma mergeKey_inherited (k : string) (v : JsVal) :
  inherited k = true → mergeKey None k v = None.
Proof. intros Hk. simpl. by rewrite Hk. Qed.

Lemma mergeObject_lookup (target source : gmap string JsVal) (k : string) :
  mergeObject target source !! k =
    match source !! k with
    | Some v => mergeKey (target !! k) k v
    | None => clone <$> target !! k
    end.
Proof.
  unfold mergeObject.
  rewrite lookup_union, map_lookup_imap, lookup_fmap.
  destruct (source !! k) as [v|]; simpl.
  - destruct (target !! k) as [t|]; simpl; [reflexivity |].
    by destruct (inherited k).
  - by destruct (target !! k).
Qed.

(** The stored settings after a settings event, host by host.  What was
    stored is copied, and a host name that every object inherits is lost by
    it; the fragment of the payload for the host, if any, is merged in; and
    for the sender [local] is merged in last. *)
Lemma settingsApplied_lookup (host : string) (payload : gmap string JsVal)
    (s : Session) (k : string) :
  settings (settingsApplied host payload s) !! k =
    let copied := if inherited k then None else clone <$> settings s !! k in
    let entry := match restOf payload !! k with
                 | Some v => mergeKey copied k v
                 | None => clone <$> copied
                 end in
    if decide (k = host) then mergeKey entry k (localOf payload)
    else clone <$> entry.
Proof.
  unfold settingsApplied, merge_all. cbn [settings foldl].
  rewrite !mergeObject_lookup, lookup_empty.
  assert (Hcopied : match settings s !! k with
                    | Some v => mergeKey None k v
                    | None => clone <$> None
                    end
                    = if inherited k then None else clone <$> settings s !! k).
  { destruct (settings s !! k); simpl; by destruct (inherited k). }
  rewrite Hcopied. cbn zeta.
  destruct (decide (k = host)) as [-> | Hne].
  - by rewrite lookup_singleton_eq.
  - by rewrite lookup_singleton_ne.
Qed.

Lemma after_onSettings (db : Db) (host : string)
    (payload : gmap string JsVal) (σ : Server) :
  session (after db (EvSettings host payload) σ)
  = settingsApplied host payload (session σ).
Proof. unfold after. cbn [handle]. by rewrite onSettings_returns. Qed.

(** The entry of a host without a fragment of its own, before [local] is
    merged in: a copy of what was stored. *)
Lemma entry_without_fragment (k : string) (stored : option JsVal) :
  inherited k = false →
  clone <$> (if inherited k then None else clone <$> stored)
  = clone <$> stored.
Proof.
  intros ->. destruct stored as [v|]; [| reflexivity]. simpl.
  by rewrite clone_idem.
Qed.

Lemma default_clone (stored : option JsVal) :
  default JUndef stored = JUndef → default JUndef (clone <$> stored) = JUndef.
Proof. destruct stored as [v|]; [| done]. simpl. by intros ->. Qed.

(** ** Stored settings *)

(** The first settings of a host are stored as sent: where nothing, or
    [undefined], is stored for the sender, the payload has no fragment under
    the sender's own key, the host name is none that every object inherits
    and no key of [local] is, the entry of the sender becomes [local]. *)
Theorem onSettings_stores_first_settings
    (db : Db) (host : string) (payload : gmap string JsVal) (σ : Server) :
  inherited host = false →
  plain (localOf payload) = true →
  prop (settings (session σ)) host = JUndef →
  restOf payload !! host = None →
  settings (session (after db (EvSettings host payload) σ)) !! host
  = Some (localOf payload).
Proof.
  intros Hhost Hplain Hstored Hrest.
  rewrite after_onSettings, settingsApplied_lookup, Hrest. cbn zeta.
  rewrite decide_True by reflexivity.
  rewrite (entry_without_fragment host _ Hhost).
  rewrite (mergeKey_mergedInto _ _ _ Hhost).
  rewrite mergedInto_undefined; [reflexivity | | exact Hplain].
  by apply default_clone.
Qed.

Lemma onSettings_stores_first_settings_witness :
  inherited "h3" = false ∧
  plain (localOf {["local"%string := dark]}) = true ∧
  prop (settings (session connectedServer)) "h3" = JUndef ∧
  restOf {["local"%string := dark]} !! "h3"%string = None ∧
  settings (session (after scenarioDb
                       (EvSettings "h3" {["local"%string := dark]})
                       connectedServer)) !! "h3"%string
  = Some dark.
Proof.
  split; [reflexivity |]. split; [reflexivity |].
  split; [reflexivity |]. split; [reflexivity |].
  exact (onSettings_stores_first_settings scenarioDb "h3"
           {["local"%string := dark]} connectedServer
           eq_refl eq_refl eq_refl eq_refl).
Defined.

(** What a settings event does to the entry of another host whose name is
    none that every object inherits.  Without a fragment for it in the
    payload the entry is replaced by a copy of itself, which is the entry
    itself if it is plain.  A fragment for a host that has no settings is
    stored, as sent if it is plain: one client can write the settings of
    another. *)
Theorem onSettings_other_hosts
    (db : Db) (host : string) (payload : gmap string JsVal) (σ : Server)
    (k : string) :
  k ≠ host →
  inherited k = false →
  let stored := settings (session σ) in
  let stored' := settings (session (after db (EvSettings host payload) σ)) in
  (restOf payload !! k = None → stored' !! k = clone <$> stored !! k) ∧
  (restOf payload !! k = None →
   ∀ v, stored !! k = Some v → plain v = true → stored' !! k = Some v) ∧
  (∀ v, restOf payload !! k = Some v → prop stored k = JUndef →
        plain v = true → stored' !! k = Some v).
Proof.
  intros Hne Hk stored stored'. subst stored stored'.
  rewrite after_onSettings, settingsApplied_lookup. cbn zeta.
  rewrite decide_False by done.
  assert (Hcopy : restOf payload !! k = None →
                  clone <$>
                    match restOf payload !! k with
                    | Some v =>
                        mergeKey (if inherited k then None
                                  else clone <$> settings (session σ) !! k) k v
                    | None =>
                        clone <$> (if inherited k then None
                                   else clone <$> settings (session σ) !! k)
                    end
                  = clone <$> settings (session σ) !! k).
  { intros ->. rewrite (entry_without_fragment k _ Hk).
    destruct (settings (session σ) !! k); [| reflexivity]. simpl.
    by rewrite clone_idem. }
  split; [exact Hcopy |]. split.
  - intros Hrest v Hv Hplain. rewrite (Hcopy Hrest), Hv. simpl.
    by rewrite clone_plain.
  - intros v -> Hundef Hplain.
    rewrite (mergeKey_mergedInto _ _ _ Hk). rewrite Hk. simpl.
    rewrite mergedInto_undefined; [by rewrite clone_plain | | exact Hplain].
    by apply default_clone.
Qed.

Lemma onSettings_other_hosts_witness :
  let payload : gmap string JsVal :=
    {["local"%string := dark; "h4"%string := privateDark]} in
  let σ' := after scenarioDb (EvSettings "h3" payload) connectedServer in
  "h4"%string ≠ "h3"%string ∧
  inherited "h4" = false ∧
  restOf payload !! "h4"%string = Some privateDark ∧
  plain privateDark = true ∧
  settings (session σ') !! "h4"%string = Some privateDark ∧
  restOf payload !! "h1"%string = None ∧
  settings (session σ') !! "h1"%string
  = clone <$> settings (session connectedServer) !! "h1"%string.
Proof.
  intros payload σ'.
  assert (Hne4 : "h4"%string ≠ "h3"%string) by discriminate.
  assert (Hne1 : "h1"%string ≠ "h3"%string) by discriminate.
  destruct (onSettings_other_hosts scenarioDb "h3" payload connectedServer
              "h4" Hne4 eq_refl) as (_ & _ & Hpush).
  destruct (onSettings_other_hosts scenarioDb "h3" payload connectedServer
              "h1" Hne1 eq_refl) as (Hframe & _ & _).
  split; [exact Hne4 |]. split; [reflexivity |]. split; [reflexivity |].
  split; [reflexivity |].
  split; [exact (Hpush privateDark eq_refl eq_refl eq_refl) |].
  split; [reflexivity | exact (Hframe eq_refl)].
Defined.

(** A settings event without [local], or with [local] [undefined], erases
    the stored settings of the sender, whatever was stored and whatever
    fragment the payload has for it: the entry becomes [undefined].  The one
    exception is a host name that every object inherits, under which the
    merge stores nothing at all. *)
Theorem onSettings_without_local_erases
    (db : Db) (host : string) (payload : gmap string JsVal) (σ : Server) :
  prop payload "local" = JUndef →
  let stored' := settings (session (after db (EvSettings host payload) σ)) in
  (inherited host = false → stored' !! host = Some JUndef) ∧
  (inherited host = true → stored' !! host = None).
Proof.
  intros Hlocal stored'. subst stored'.
  rewrite after_onSettings, settingsApplied_lookup. cbn zeta.
  rewrite decide_True by reflexivity. unfold localOf. rewrite Hlocal.
  destruct (inherited host) eqn:Hhost.
  - split; [discriminate |]. intros _.
    destruct (restOf payload !! host); simpl; rewrite ?Hhost; simpl;
      by rewrite ?Hhost.
  - split; [| discriminate]. intros _.
    set (entry := match restOf payload !! host with
                  | Some v => _
                  | None => _
                  end).
    destruct entry as [t|]; simpl; [reflexivity | by rewrite Hhost].
Qed.

Lemma onSettings_without_local_erases_witness :
  let payload : gmap string JsVal :=
    {["global"%string := JObj [("launchOnStartup"%string, JBool true)]]} in
  prop payload "local" = JUndef ∧
  settings (session settingsServer) !! "h3"%string = Some dark ∧
  settings (session (after scenarioDb (EvSettings "h3" payload)
                       settingsServer)) !! "h3"%string
  = Some JUndef.
Proof.
  intros payload. split; [reflexivity |].
  split; [vm_compute; reflexivity |].
  destruct (onSettings_without_local_erases scenarioDb "h3" payload
              settingsServer eq_refl) as [Hbound _].
  exact (Hbound eq_refl).
Defined.

(** After a disconnection, the settings the host sends next are stored as
    sent, if they are plain and the host name is none that every object
    inherits: nothing of what was stored for it before is merged in. *)
Theorem settings_after_reconnection
    (db : Db) (host : string) (payload : gmap string JsVal) (σ : Server) :
  inherited host = false →
  plain (localOf payload) = true →
  restOf payload !! host = None →
  settings (session (run db [Disconnection host; EvSettings host payload] σ))
    !! host
  = Some (localOf payload).
Proof.
  intros Hhost Hplain Hrest. cbn [run foldl].
  rewrite after_onSettings, settingsApplied_lookup, Hrest. cbn zeta.
  rewrite decide_True by reflexivity.
  rewrite (entry_without_fragment host _ Hhost).
  rewrite (mergeKey_mergedInto _ _ _ Hhost).
  rewrite mergedInto_undefined; [reflexivity | | exact Hplain].
  apply default_clone. unfold after. cbn. by rewrite lookup_insert_eq.
Qed.

Lemma settings_after_reconnection_witness :
  let payload : gmap string JsVal :=
    {["local"%string := JObj [("theme"%string, JStr "light")]]} in
  inherited "h4" = false ∧
  plain (localOf payload) = true ∧
  restOf payload !! "h4"%string = None ∧
  settings (session settingsServer) !! "h4"%string = Some privateDark ∧
  settings (session (run scenarioDb
                       [Disconnection "h4"; EvSettings "h4" payload]
                       settingsServer)) !! "h4"%string
  = Some (JObj [("theme"%string, JStr "light")]).
Proof.
  intros payload. split; [reflexivity |]. split; [reflexivity |].
  split; [reflexivity |]. split; [vm_compute; reflexivity |].
  exact (settings_after_reconnection scenarioDb "h4" payload settingsServer
           eq_refl eq_refl eq_refl).
Defined.

Lemma field_copyFields (k : string) (fs : list (string * JsVal)) :
  field k fs = None → field k (copyFields fs) = None.
Proof.
  induction fs as [|[k' x] fs IH]; [reflexivity |]. simpl.
  destruct (String.eqb k k') eqn:Hk; [discriminate |]. intros Hfs.
  destruct (inherited k'); [by apply IH |]. simpl. rewrite Hk. by apply IH.
Qed.

Lemma field_cloneFields (k : string) (fs : list (string * JsVal)) :
  field k (cloneFields fs) = clone <$> field k fs.
Proof.
  unfold cloneFields. induction fs as [|[k' x] fs IH]; [reflexivity |].
  simpl. by destruct (String.eqb k k').
Qed.

Lemma field_set_field_eq (k : string) (v : JsVal) (fs : list (string * JsVal)) :
  field k (set_field k v fs) = Some v.
Proof.
  induction fs as [|[k' v'] fs IH]; simpl.
  - by rewrite String.eqb_refl.
  - destruct (String.eqb k k') eqn:Heq; simpl; rewrite ?String.eqb_refl, ?Heq;
      [reflexivity | exact IH].
Qed.

Lemma field_set_field_ne (k k' : string) (v : JsVal)
    (fs : list (string * JsVal)) :
  k ≠ k' → field k' (set_field k v fs) = field k' fs.
Proof.
  intros Hne. induction fs as [|[k0 v0] fs IH]; simpl.
  - destruct (String.eqb k' k) eqn:Heq; [| reflexivity].
    apply String.eqb_eq in Heq. congruence.
  - destruct (String.eqb k k0) eqn:Heq; simpl.
    + apply String.eqb_eq in Heq. subst k0.
      destruct (String.eqb k' k) eqn:Heq'; [| reflexivity].
      apply String.eqb_eq in Heq'. congruence.
    + by rewrite IH.
Qed.

(** An object holding only [x] under [seg], merged into [t]: the result is
    an object that has, under [seg], [x] merged into what [t] had there, and
    under any other key a copy of what [t] had. *)
Lemma mergedInto_single (t : option JsVal) (seg : string) (x : JsVal) :
  inherited seg = false →
  ∃ fs, mergedInto t (JObj [(seg, x)]) = JObj fs ∧
        (∃ t1, field seg fs = Some (mergedInto t1 x)) ∧
        ∀ k, k ≠ seg →
             (∀ tfs, t = Some (JObj tfs) → field k tfs = None) →
             field k fs = None.
Proof.
  intros Hseg.
  assert (Hcopy : clone (JObj [(seg, x)]) = JObj [(seg, clone x)])
    by (rewrite clone_object; simpl; by rewrite Hseg).
  assert (Hfresh : ∃ fs, JObj [(seg, clone x)] = JObj fs ∧
            (∃ t1, field seg fs = Some (mergedInto t1 x)) ∧
            ∀ k, k ≠ seg →
                 (∀ tfs, t = Some (JObj tfs) → field k tfs = None) →
                 field k fs = None).
  { eexists. split; [reflexivity |]. split.
    - exists None. simpl. by rewrite String.eqb_refl.
    - intros k Hk _. simpl. destruct (String.eqb k seg) eqn:Heq; [| done].
      apply String.eqb_eq in Heq. contradiction. }
  destruct t as [t|]; [| unfold mergedInto; by rewrite Hcopy].
  destruct t as [| |b|n|s|items|tfs]; try exact Hfresh.
  - change (mergedInto (Some (JArr items)) (JObj [(seg, x)]))
      with (clone (JObj [(seg, x)])).
    by rewrite Hcopy.
  - simpl mergedInto. eexists. split; [reflexivity |].
    destruct (field seg tfs) as [t1|] eqn:Ht1.
    + split.
      * exists (Some t1). by rewrite field_set_field_eq.
      * intros k Hk Hnone. rewrite field_set_field_ne by done.
        rewrite field_cloneFields, (Hnone tfs eq_refl). reflexivity.
    + rewrite Hseg. split.
      * exists None. by rewrite field_set_field_eq.
      * intros k Hk Hnone. rewrite field_set_field_ne by done.
        rewrite field_cloneFields, (Hnone tfs eq_refl). reflexivity.
Qed.

(** A value that is not an object, sent alone at a path of nested objects,
    is what [get] finds by following the path through the merged settings,
    whatever was stored before: scalars and arrays overwrite at any
    depth. *)
Lemma descend_mergedInto_nested (path : list string) (leaf : JsVal) :
  Forall (λ seg, inherited seg = false) path →
  isObject leaf = false →
  ∀ t, descend (mergedInto t (nested path leaf)) None path = leaf.
Proof.
  intros Hpath Hleaf. induction Hpath as [|seg path Hseg _ IH]; intros t.
  - simpl. destruct t as [t|]; simpl.
    + destruct leaf; try reflexivity. discriminate Hleaf.
    + destruct leaf; try reflexivity. discriminate Hleaf.
  - cbn [nested].
    destruct (mergedInto_single t seg (nested path leaf) Hseg)
      as (fs & -> & [t1 Hfield] & _).
    cbn [descend fieldsOf]. rewrite Hfield. apply IH.
Qed.

(** The privacy switch.  A host whose name is none that every object
    inherits and whose stored settings have no key that is the whole dotted
    path sends, as its [local] settings, only [security.options.private] set
    to a boolean.  Then [get] finds that boolean in the settings stored for
    it, whatever else they were; so the public view computed next hides the
    host if the boolean is [true], and shows its stored settings if it is
    [false]. *)
Theorem privacy_switch
    (db : Db) (host : string) (payload : gmap string JsVal) (σ : Server)
    (b : bool) :
  inherited host = false →
  (∀ fs, settings (session σ) !! host = Some (JObj fs) →
         field "security.options.private" fs = None) →
  localOf payload = nested privatePath (JBool b) →
  restOf payload !! host = None →
  let s' := session (after db (EvSettings host payload) σ) in
  ∃ v, settings s' !! host = Some v ∧
       get_value v privatePath = JBool b ∧
       if b then json (getPublicSettings s') !! host = None
       else getPublicSettings s' !! host = Some v.
Proof.
  intros Hhost Hwhole Hlocal Hrest s'. subst s'.
  rewrite json_lookup, getPublicSettings_lookup.
  rewrite after_onSettings, settingsApplied_lookup, Hrest. cbn zeta.
  rewrite decide_True by reflexivity.
  rewrite (entry_without_fragment host _ Hhost).
  rewrite (mergeKey_mergedInto _ _ _ Hhost), Hlocal.
  eexists. split; [reflexivity |].
  set (t := clone <$> settings (session σ) !! host).
  assert (Hget : get_value (mergedInto t (nested privatePath (JBool b)))
                   privatePath = JBool b).
  { pose proof (descend_mergedInto_nested privatePath (JBool b)) as Hdescend.
    specialize (Hdescend ltac:(repeat constructor) eq_refl t).
    change (nested privatePath (JBool b))
      with (JObj [("security"%string,
                   nested ["options"; "private"]%string (JBool b))]) in *.
    destruct (mergedInto_single t "security"
                (nested ["options"; "private"]%string (JBool b)) eq_refl)
      as (fs & Hfs & _ & Hother).
    rewrite Hfs in *. unfold get_value. cbn [fieldsOf].
    change (String.concat "." privatePath)
      with "security.options.private"%string.
    rewrite (Hother "security.options.private"%string); [exact Hdescend | done |].
    intros tfs Ht. subst t.
    destruct (settings (session σ) !! host) as [v0|] eqn:Hv0; [| discriminate].
    simpl in Ht. destruct v0 as [| | | | | |fs0]; try discriminate.
    rewrite clone_object in Ht. injection Ht as <-.
    apply field_copyFields. by apply Hwhole. }
  split; [exact Hget |].
  cbn [fmap option_fmap option_map]. unfold redact. rewrite Hget.
  destruct b; reflexivity.
Qed.

Lemma privacy_switch_witness :
  let on : gmap string JsVal :=
    {["local"%string := nested privatePath (JBool true)]} in
  let off : gmap string JsVal :=
    {["local"%string := nested privatePath (JBool false)]} in
  let σ1 := after scenarioDb (EvSettings "h3" on) settingsServer in
  let σ2 := after scenarioDb (EvSettings "h3" off) σ1 in
  getPublicSettings (session settingsServer) !! "h3"%string = Some dark ∧
  json (getPublicSettings (session σ1)) !! "h3"%string = None ∧
  ∃ v, getPublicSettings (session σ2) !! "h3"%string = Some v ∧
       get_value v privatePath = JBool false.
Proof.
  intros on off σ1 σ2.
  assert (Hwhole : ∀ σ : Server,
            (∃ v, settings (session σ) !! "h3"%string = Some v ∧
                  ∀ fs, v = JObj fs →
                        field "security.options.private" fs = None) →
            ∀ fs, settings (session σ) !! "h3"%string = Some (JObj fs) →
                  field "security.options.private" fs = None).
  { intros σ (v & Hv & Hnone) fs Hfs. apply Hnone. congruence. }
  destruct (privacy_switch scenarioDb "h3" on settingsServer true eq_refl)
    as (v1 & _ & _ & Hhidden); [| reflexivity | reflexivity |].
  { apply Hwhole. eexists. split; [vm_compute; reflexivity |].
    by intros fs [= <-]. }
  destruct (privacy_switch scenarioDb "h3" off σ1 false eq_refl)
    as (v2 & _ & Hget & Hshown); [| reflexivity | reflexivity |].
  { apply Hwhole. eexists. split; [vm_compute; reflexivity |].
    by intros fs [= <-]. }
  split; [vm_compute; reflexivity |]. split; [exact Hhidden |].
  exists v2. split; [exact Hshown | exact Hget].
Defined.

Lemma field_copyFields_clone (k : string) (fs : list (string * JsVal)) :
  inherited k = false → field k (copyFields fs) = clone <$> field k fs.
Proof.
  intros Hk. induction fs as [|[k' x] fs IH]; [reflexivity |]. simpl.
  destruct (inherited k') eqn:Hk'.
  - destruct (String.eqb k k') eqn:Heq; [| exact IH].
    apply String.eqb_eq in Heq. congruence.
  - simpl. by destruct (String.eqb k k').
Qed.

(** The same through the copy that a later merge makes of the result. *)
Lemma descend_clone_mergedInto_nested (path : list string) (leaf : JsVal) :
  Forall (λ seg, inherited seg = false) path →
  isObject leaf = false →
  ∀ t, descend (clone (mergedInto t (nested path leaf))) None path = leaf.
Proof.
  intros Hpath Hleaf. induction Hpath as [|seg path Hseg _ IH]; intros t.
  - simpl. destruct t as [t|]; simpl.
    + destruct leaf; try reflexivity. discriminate Hleaf.
    + destruct leaf; try reflexivity. discriminate Hleaf.
  - cbn [nested].
    destruct (mergedInto_single t seg (nested path leaf) Hseg)
      as (fs & -> & [t1 Hfield] & _).
    rewrite clone_object. cbn [descend fieldsOf].
    rewrite (field_copyFields_clone seg fs Hseg), Hfield. simpl. apply IH.
Qed.

(** ** Settings messages *)

Lemma settingsMessages_broadcast (event : string) (data : Payload)
    (ms : list Message) :
  settingsMessages (Broadcast event data :: ms) = settingsMessages ms.
Proof. reflexivity. Qed.

Lemma settingsMessages_settings (host : string) (o : gmap string JsVal)
    (ms : list Message) :
  settingsMessages (SendJSON host "settings" (PSettings o) :: ms)
  = (host, o) :: settingsMessages ms.
Proof. reflexivity. Qed.

Lemma settingsMessages_broadcasts (ms : list Message) :
  Forall (λ m, ∃ event data, m = Broadcast event data) ms →
  settingsMessages ms = [].
Proof.
  induction 1 as [|m ms (event & data & ->) _ IH]; [reflexivity |].
  by rewrite settingsMessages_broadcast.
Qed.

Lemma settingsMessages_fmap (F : string → gmap string JsVal)
    (hosts : list string) :
  settingsMessages ((λ h, SendJSON h "settings" (PSettings (F h))) <$> hosts)
  = (λ h, (h, F h)) <$> hosts.
Proof.
  induction hosts as [|h hosts IH]; [reflexivity |].
  rewrite !fmap_cons, settingsMessages_settings. by rewrite IH.
Qed.

(** The settings messages an event sends: one to the client that connects,
    one to each connected client on a settings event, none otherwise. *)
Lemma settingsMessages_emitted (db : Db) (e : Event) (σ : Server) :
  let σ' := after db e σ in
  settingsMessages (emitted db e σ) =
    match e with
    | Connection host => [(host, getPublicSettings (session σ'))]
    | EvSettings _ _ =>
        (λ h, (h, settingsMessage (getPublicSettings (session σ'))
                    (session σ') (globalSettings σ') h)) <$> clients σ
    | _ => []
    end.
Proof.
  unfold emitted, after.
  destruct e as [h | h | h p | h p | h id | | h baniId | h p]; cbn [handle].
  - rewrite synchronise_returns. cbn [snd sent session].
    rewrite drop_app_length. by destruct (bani (session σ)).
  - cbn. by rewrite drop_all.
  - apply settingsMessages_broadcasts.
    destruct (lookupShabad db p) as [sh|] eqn:Hlookup.
    + destruct (lines sh) as [|l ls] eqn:Hlines.
      * rewrite (onShabad_throws_in_onLine σ db p sh Hlookup Hlines).
        cbn [snd sent]. rewrite drop_app_length.
        repeat constructor; eauto.
      * destruct (first_and_last (lines sh)) as (first & lst & Hfirst & Hlast);
          [by rewrite Hlines |].
        rewrite (onShabad_returns σ db p sh first lst Hlookup Hfirst Hlast).
        cbn [snd sent]. rewrite <- !app_assoc, drop_app_length.
        repeat constructor; eauto.
    + rewrite onShabad_aborts by done. cbn [snd]. rewrite drop_all.
      constructor.
  - apply settingsMessages_broadcasts.
    destruct (shabad (session σ)) as [sh|] eqn:Hsh.
    + destruct (lines sh) as [|l ls] eqn:Hlines.
      * rewrite (onLine_throws_without_lines σ p false sh Hsh Hlines).
        cbn [snd]. rewrite drop_all. constructor.
      * destruct (first_and_last (lines sh)) as (first & lst & Hfirst & Hlast);
          [by rewrite Hlines |].
        rewrite (onLine_returns σ p false sh first lst Hsh Hfirst Hlast).
        cbn [snd sent]. rewrite drop_two. repeat constructor; eauto.
    + rewrite onLine_throws_without_shabad by done. cbn [snd].
      rewrite drop_all. constructor.
  - cbn. by rewrite drop_app_length.
  - cbn. by rewrite drop_app_length.
  - apply settingsMessages_broadcasts.
    destruct (getBaniLines db baniId) as [b|] eqn:Hb.
    + destruct (head (lines b)) as [firstLine|] eqn:Hfirst.
      * rewrite (onBani_throws_in_onLine σ db baniId b firstLine Hb Hfirst).
        cbn [snd sent]. rewrite drop_app_length. repeat constructor; eauto.
      * rewrite onBani_aborts.
        -- cbn [snd]. rewrite drop_all. constructor.
        -- right. exists b. split; [exact Hb |].
           destruct (lines b); [reflexivity | discriminate].
    + rewrite onBani_aborts by (by left). cbn [snd]. rewrite drop_all.
      constructor.
  - rewrite onSettings_returns. cbn [snd sent session globalSettings].
    rewrite drop_app_length. apply settingsMessages_fmap.
Qed.

(** No settings message holds the settings of a host that is private once
    the event is handled: in every settings message an event sends, on a
    connection as on a settings event, a host in whose settings, as stored
    after the event, [get] finds a truthy [security.options.private] has no
    entry of its own; only the fields [local] and [global] are not covered.
    What counts is what is stored after the event, not before: the settings
    of a host that was private are sent if the event itself ends that. *)
Theorem private_settings_never_sent
    (db : Db) (e : Event) (σ : Server)
    (recipient : string) (msg : gmap string JsVal) (k : string) (v : JsVal) :
  (recipient, msg) ∈ settingsMessages (emitted db e σ) →
  settings (session (after db e σ)) !! k = Some v →
  truthy (get_value v privatePath) = true →
  k ≠ "local"%string → k ≠ "global"%string →
  json msg !! k = None.
Proof.
  intros Hmsg Hv Hprivate Hlocal Hglobal.
  rewrite settingsMessages_emitted in Hmsg.
  assert (Hpublic : getPublicSettings (session (after db e σ)) !! k
                    = Some JUndef).
  { rewrite getPublicSettings_lookup, Hv. cbn. unfold redact.
    by rewrite Hprivate. }
  destruct e as [h | h | h p | h p | h id | | h baniId | h p];
    try (by apply elem_of_nil in Hmsg).
  - apply list_elem_of_singleton in Hmsg. injection Hmsg as -> ->.
    by rewrite json_lookup, Hpublic.
  - apply list_elem_of_fmap in Hmsg as (h' & Heq & _).
    injection Heq as -> ->. rewrite json_lookup. unfold settingsMessage.
    rewrite !lookup_insert_ne by done.
    destruct (decide (h' = k)) as [-> | Hne].
    + by rewrite lookup_insert_eq.
    + rewrite lookup_insert_ne by done. by rewrite Hpublic.
Qed.

Lemma private_settings_never_sent_witness :
  let e := EvSettings "h1" {["local"%string := dark]} in
  let msg := settingsMessage
               (getPublicSettings (session (after scenarioDb e settingsServer)))
               (session (after scenarioDb e settingsServer))
               (globalSettings (after scenarioDb e settingsServer)) "h3" in
  ("h3"%string, msg) ∈ settingsMessages (emitted scenarioDb e settingsServer) ∧
  settings (session (after scenarioDb e settingsServer)) !! "h4"%string
    = Some privateDark ∧
  json msg !! "h4"%string = None ∧
  json msg !! "h1"%string = Some dark.
Proof.
  intros e msg.
  assert (Hin : ("h3"%string, msg)
                  ∈ settingsMessages (emitted scenarioDb e settingsServer)).
  { rewrite settingsMessages_emitted. apply list_elem_of_fmap.
    exists "h3"%string. split; [reflexivity |].
    apply list_elem_of_In. simpl. auto. }
  assert (Hv : settings (session (after scenarioDb e settingsServer))
                 !! "h4"%string = Some privateDark)
    by (vm_compute; reflexivity).
  split; [exact Hin |]. split; [exact Hv |]. split.
  - apply (private_settings_never_sent scenarioDb e settingsServer "h3" msg
             "h4" privateDark Hin Hv eq_refl); discriminate.
  - vm_compute. reflexivity.
Defined.

(** A client can switch the privacy of another host.  A fragment of the
    payload under the name of another host, none that every object inherits
    and whose stored settings have no key that is the whole dotted path,
    that holds only [security.options.private] set to a boolean, is merged
    into the settings of that host.  [get] then finds the boolean there; if
    it is [false], the public view holds the settings of that host,
    whatever [security.options.private] was before, and the settings
    message of the event carries them to every other client. *)
Theorem fragment_switches_privacy_of_another_host
    (db : Db) (host : string) (payload : gmap string JsVal) (σ : Server)
    (k : string) (b : bool) :
  k ≠ host →
  inherited k = false →
  (∀ fs, settings (session σ) !! k = Some (JObj fs) →
         field "security.options.private" fs = None) →
  restOf payload !! k = Some (nested privatePath (JBool b)) →
  let e := EvSettings host payload in
  let s' := session (after db e σ) in
  ∃ v, settings s' !! k = Some v ∧
       get_value v privatePath = JBool b ∧
       (if b then json (getPublicSettings s') !! k = None
        else getPublicSettings s' !! k = Some v) ∧
       (b = false →
        k ≠ "local"%string → k ≠ "global"%string →
        ∀ recipient msg,
          (recipient, msg) ∈ settingsMessages (emitted db e σ) →
          recipient ≠ k →
          msg !! k = Some v).
Proof.
  intros Hne Hk Hwhole Hrest e s'. subst s' e.
  set (t := clone <$> settings (session σ) !! k).
  assert (Hstored : settings (session (after db (EvSettings host payload) σ))
                      !! k
                    = Some (clone (mergedInto t (nested privatePath (JBool b))))).
  { rewrite after_onSettings, settingsApplied_lookup, Hrest. cbn zeta.
    rewrite decide_False by done.
    rewrite (mergeKey_mergedInto _ _ _ Hk), Hk. reflexivity. }
  assert (Hget : get_value (clone (mergedInto t (nested privatePath (JBool b))))
                   privatePath = JBool b).
  { pose proof (descend_clone_mergedInto_nested privatePath (JBool b))
      as Hdescend.
    specialize (Hdescend ltac:(repeat constructor) eq_refl t).
    change (nested privatePath (JBool b))
      with (JObj [("security"%string,
                   nested ["options"; "private"]%string (JBool b))]) in *.
    destruct (mergedInto_single t "security"
                (nested ["options"; "private"]%string (JBool b)) eq_refl)
      as (fs & Hfs & _ & Hother).
    rewrite Hfs in *. rewrite clone_object in *.
    unfold get_value. cbn [fieldsOf].
    change (String.concat "." privatePath)
      with "security.options.private"%string.
    rewrite (field_copyFields "security.options.private" fs);
      [exact Hdescend |].
    apply Hother; [done |].
    intros tfs Ht. subst t.
    destruct (settings (session σ) !! k) as [v0|] eqn:Hv0; [| discriminate].
    simpl in Ht. destruct v0 as [| | | | | |fs0]; try discriminate.
    rewrite clone_object in Ht. injection Ht as <-.
    apply field_copyFields. by apply Hwhole. }
  assert (Hpublic : getPublicSettings
                      (session (after db (EvSettings host payload) σ)) !! k
                    = Some (if b then JUndef
                            else clone (mergedInto t
                                          (nested privatePath (JBool b))))).
  { rewrite getPublicSettings_lookup, Hstored.
    cbn [fmap option_fmap option_map]. unfold redact. rewrite Hget.
    by destruct b. }
  eexists. split; [exact Hstored |]. split; [exact Hget |]. split.
  - rewrite json_lookup, Hpublic. by destruct b.
  - intros -> Hlocal Hglobal recipient msg Hmsg Hrecipient.
    rewrite settingsMessages_emitted in Hmsg.
    apply list_elem_of_fmap in Hmsg as (h' & Heq & _). injection Heq as -> ->.
    unfold settingsMessage. rewrite !lookup_insert_ne by done.
    exact Hpublic.
Qed.

Lemma fragment_switches_privacy_of_another_host_witness :
  let payload : gmap string JsVal :=
    {["h4"%string := nested privatePath (JBool false)]} in
  let e := EvSettings "h1" payload in
  let σ' := after scenarioDb e settingsServer in
  let shown :=
    JObj [("theme"%string, JStr "dark");
          ("security"%string,
           JObj [("options"%string, JObj [("private"%string, JBool false)])])]
  in
  let msg := settingsMessage (getPublicSettings (session σ')) (session σ')
               (globalSettings σ') "h3" in
  json (getPublicSettings (session settingsServer)) !! "h4"%string = None ∧
  settings (session σ') !! "h4"%string = Some shown ∧
  ("h3"%string, msg) ∈ settingsMessages (emitted scenarioDb e settingsServer) ∧
  msg !! "h4"%string = Some shown.
Proof.
  intros payload e σ' shown msg.
  assert (Hne : "h4"%string ≠ "h1"%string) by discriminate.
  assert (Hwhole : ∀ fs, settings (session settingsServer) !! "h4"%string
                         = Some (JObj fs) →
                         field "security.options.private" fs = None).
  { assert (H4 : settings (session settingsServer) !! "h4"%string
                 = Some privateDark) by (vm_compute; reflexivity).
    intros fs Hfs. rewrite H4 in Hfs. by injection Hfs as <-. }
  assert (Hin : ("h3"%string, msg)
                  ∈ settingsMessages (emitted scenarioDb e settingsServer)).
  { unfold msg, σ'. rewrite settingsMessages_emitted. apply list_elem_of_fmap.
    exists "h3"%string. split; [reflexivity |].
    apply list_elem_of_In. simpl. auto. }
  assert (Hstored : settings (session σ') !! "h4"%string = Some shown)
    by (vm_compute; reflexivity).
  destruct (fragment_switches_privacy_of_another_host scenarioDb "h1" payload
              settingsServer "h4" false Hne eq_refl Hwhole eq_refl)
    as (v & Hv & _ & _ & Hsent).
  assert (Heq : v = shown).
  { fold e in Hv. fold σ' in Hv. rewrite Hstored in Hv. by injection Hv. }
  subst v.
  split; [vm_compute; reflexivity |]. split; [exact Hstored |].
  split; [exact Hin |].
  assert (Hlocal : "h4"%string ≠ "local"%string) by discriminate.
  assert (Hglobal : "h4"%string ≠ "global"%string) by discriminate.
  assert (Hrecipient : "h3"%string ≠ "h4"%string) by discriminate.
  exact (Hsent eq_refl Hlocal Hglobal "h3"%string msg Hin Hrecipient).
Defined.

(** A settings event returns and sends one settings message to each
    connected client, in the order of the connections, and nothing else;
    whoever is not connected, the sender included, gets none.  Of the
    session only the stored settings change. *)
Theorem onSettings_one_message_per_client
    (db : Db) (host : string) (payload : gmap string JsVal) (σ : Server) :
  let e := EvSettings host payload in
  let σ' := after db e σ in
  let s := session σ in
  let s' := session σ' in
  fst (handle db e σ) = Returned tt ∧
  emitted db e σ =
    (λ h, SendJSON h "settings"
            (PSettings
               (settingsMessage (getPublicSettings s') s' (globalSettings σ') h)))
      <$> clients σ ∧
  length (emitted db e σ) = length (clients σ) ∧
  clients σ' = clients σ ∧
  (bani s', lineId s', shabad s', viewedLines s', mainLineId s', history s',
   status s')
  = (bani s, lineId s, shabad s, viewedLines s, mainLineId s, history s,
     status s).
Proof.
  intros e σ' s s'. subst s' s σ' e. unfold emitted, after. cbn [handle].
  rewrite onSettings_returns. cbn [fst snd sent session clients globalSettings].
  rewrite drop_app_length, length_fmap. repeat split.
Qed.

(** What the other clients receive on a settings event: unless the sender is
    called "local" or "global", each other client finds under the sender's
    host name what is now stored for the sender, if anything is, or
    [undefined] in its place if [get] finds a truthy
    [security.options.private] in it. *)
Theorem onSettings_shows_sender_to_others
    (db : Db) (host : string) (payload : gmap string JsVal) (σ : Server)
    (recipient : string) (msg : gmap string JsVal) :
  (recipient, msg)
    ∈ settingsMessages (emitted db (EvSettings host payload) σ) →
  recipient ≠ host →
  host ≠ "local"%string → host ≠ "global"%string →
  msg !! host
  = (λ v, if truthy (get_value v privatePath) then JUndef else v)
      <$> settings (session (after db (EvSettings host payload) σ)) !! host.
Proof.
  intros Hmsg Hne Hlocal Hglobal.
  rewrite settingsMessages_emitted in Hmsg.
  apply list_elem_of_fmap in Hmsg as (h' & Heq & _). injection Heq as -> ->.
  unfold settingsMessage. rewrite !lookup_insert_ne by done.
  by rewrite getPublicSettings_lookup.
Qed.

Lemma onSettings_shows_sender_to_others_witness :
  let e := EvSettings "h3" {["local"%string := dark]} in
  let σ' := after scenarioDb e connectedServer in
  let msg := settingsMessage (getPublicSettings (session σ')) (session σ')
               (globalSettings σ') "h1" in
  ("h1"%string, msg) ∈ settingsMessages (emitted scenarioDb e connectedServer) ∧
  "h1"%string ≠ "h3"%string ∧
  settings (session σ') !! "h3"%string = Some dark ∧
  msg !! "h3"%string = Some dark.
Proof.
  intros e σ' msg.
  assert (Hin : ("h1"%string, msg)
                  ∈ settingsMessages (emitted scenarioDb e connectedServer)).
  { rewrite settingsMessages_emitted. apply list_elem_of_fmap.
    exists "h1"%string. split; [reflexivity |].
    apply list_elem_of_In. simpl. auto. }
  assert (Hne : "h1"%string ≠ "h3"%string) by discriminate.
  assert (Hstored : settings (session σ') !! "h3"%string = Some dark)
    by (vm_compute; reflexivity).
  split; [exact Hin |]. split; [exact Hne |]. split; [exact Hstored |].
  rewrite (onSettings_shows_sender_to_others scenarioDb "h3"
             {["local"%string := dark]} connectedServer "h1" msg Hin Hne)
    by discriminate.
  fold e. fold σ'. rewrite Hstored. reflexivity.
Defined.

(** ** The public view *)

(** In memory the public view has the host names of the stored settings, all
    of them; serialised, it has those whose settings are not [undefined] and
    in which [get] finds no truthy [security.options.private], each with its
    stored settings. *)
Theorem public_view_keys (s : Session) :
  dom (getPublicSettings s) = dom (settings s) ∧
  ∀ host v,
    json (getPublicSettings s) !! host = Some v ↔
    settings s !! host = Some v ∧ is_undef v = false ∧
    truthy (get_value v privatePath) = false.
Proof.
  split.
  - apply set_eq. intros host. rewrite !elem_of_dom.
    rewrite getPublicSettings_lookup.
    destruct (settings s !! host); simpl; split; intros [x Hx]; eauto;
      discriminate.
  - intros host v. rewrite json_lookup, getPublicSettings_lookup.
    destruct (settings s !! host) as [w|]; simpl.
    + unfold redact. destruct (truthy (get_value w privatePath)) eqn:Hw; simpl.
      * split; [discriminate |]. intros ([= ->] & _ & Hv). congruence.
      * destruct (is_undef w) eqn:Hu.
        -- split; [discriminate |]. intros ([= ->] & Hv & _). congruence.
        -- split; [intros [= ->]; done | by intros ([= ->] & _)].
    + split; [discriminate | by intros [? _]].
Qed.

(** ** Connection *)

(** A connection changes nothing on the server and sends seven messages, all
    to the client that connects: the content (the Bani if there is one, else
    the Shabad, be it [null]), the line, the viewed lines, the highlighted
    line, the status, the transitions of the history, and the public view of
    the settings. *)
Theorem synchronise_sends_the_snapshot
    (db : Db) (host : string) (σ : Server) :
  let e := Connection host in
  let s := session σ in
  fst (handle db e σ) = Returned tt ∧
  session (after db e σ) = s ∧
  globalSettings (after db e σ) = globalSettings σ ∧
  emitted db e σ =
    [match bani s with
     | Some b => SendJSON host "bani" (PContent (Some b))
     | None => SendJSON host "shabad" (PContent (shabad s))
     end;
     SendJSON host "line" (PLine (lineId s));
     SendJSON host "viewedLines" (PViewedLines (viewedLines s));
     SendJSON host "mainLine" (PLine (mainLineId s));
     SendJSON host "status" (PStatus (status s));
     SendJSON host "history" (PHistory (History.getTransitionsOnly (history s)));
     SendJSON host "settings" (PSettings (getPublicSettings s))].
Proof.
  intros e s. subst e s. unfold emitted, after. cbn [handle].
  rewrite synchronise_returns. cbn [fst snd sent session globalSettings].
  by rewrite drop_app_length.
Qed.

(** A client that connects after a line selection is sent the line id that
    the selection broadcast. *)
Theorem late_client_gets_the_last_line
    (db : Db) (sender host : string) (payload : LinePayload) (σ : Server)
    (sh : Content) :
  shabad (session σ) = Some sh →
  lines sh ≠ [] →
  ∃ id,
    Broadcast "line" (PLine id) ∈ emitted db (EvLine sender payload) σ ∧
    SendJSON host "line" (PLine id)
      ∈ emitted db (Connection host) (after db (EvLine sender payload) σ) ∧
    ∀ id', SendJSON host "line" (PLine id')
             ∈ emitted db (Connection host)
                 (after db (EvLine sender payload) σ) →
           id' = id.
Proof.
  intros Hsh Hlines.
  destruct (first_and_last (lines sh) Hlines) as (first & lst & Hfirst & Hlast).
  exists (newLineId sh first lst payload).
  unfold emitted, after. cbn [handle].
  rewrite synchronise_returns.
  rewrite (onLine_returns σ payload false sh first lst Hsh Hfirst Hlast).
  cbn [snd sent session lineId viewedLines].
  rewrite drop_two, drop_app_length.
  split; [apply list_elem_of_here |].
  split; [apply list_elem_of_further, list_elem_of_here |].
  intros id' Hin. apply list_elem_of_In in Hin. simpl in Hin.
  destruct (bani (session σ));
    destruct Hin as [H | [H | [H | [H | [H | [H | [H | []]]]]]]];
    try discriminate H; by injection H.
Qed.

Lemma late_client_gets_the_last_line_witness :
  let payload := mkLinePayload (Some "l2"%string) NumUndefined in
  shabad (session japjiServer) = Some japji ∧
  lines japji ≠ [] ∧
  ∃ id,
    Broadcast "line" (PLine id)
      ∈ emitted scenarioDb (EvLine "remote" payload) japjiServer ∧
    SendJSON "tv" "line" (PLine id)
      ∈ emitted scenarioDb (Connection "tv")
          (after scenarioDb (EvLine "remote" payload) japjiServer).
Proof.
  intros payload.
  assert (Hlines : lines japji ≠ []) by discriminate.
  split; [reflexivity |]. split; [exact Hlines |].
  destruct (late_client_gets_the_last_line scenarioDb "remote" "tv" payload
              japjiServer japji eq_refl Hlines)
    as (id & Hbroadcast & Hline & _).
  exists id. split; [exact Hbroadcast | exact Hline].
Defined.

(** ** What the events keep *)

Lemma frame_after_event (db : Db) (e : Event) (σ : Server) :
  let s := session σ in
  let s' := session (after db e σ) in
  status s' = status s ∧
  clients (after db e σ) = clients σ ∧
  (∀ k, inherited k = false → k ∈ dom (settings s) → k ∈ dom (settings s')) ∧
  match e with
  | EvShabad _ _ =>
      after db e σ = σ ∨ (bani s' = None ∧ mainLineId s' = None)
  | EvBani _ _ =>
      after db e σ = σ ∨ (shabad s' = None ∧ mainLineId s' = mainLineId s)
  | EvMainLine _ id =>
      shabad s' = shabad s ∧ bani s' = bani s ∧ mainLineId s' = id
  | _ =>
      shabad s' = shabad s ∧ bani s' = bani s ∧ mainLineId s' = mainLineId s
  end.
Proof.
  unfold after.
  destruct e as [h | h | h p | h p | h id | | h baniId | h p]; cbn [handle].
  - rewrite synchronise_returns. cbn. by split_and!.
  - cbn. split_and!; try done.
    intros k _. rewrite dom_insert_L. set_solver.
  - destruct (lookupShabad db p) as [sh|] eqn:Hlookup.
    + destruct (lines sh) as [|l ls] eqn:Hlines.
      * rewrite (onShabad_throws_in_onLine σ db p sh Hlookup Hlines).
        cbn. split_and!; try done. right. by split.
      * destruct (first_and_last (lines sh)) as (first & lst & Hfirst & Hlast);
          [by rewrite Hlines |].
        rewrite (onShabad_returns σ db p sh first lst Hlookup Hfirst Hlast).
        cbn. split_and!; try done. right. by split.
    + rewrite onShabad_aborts by done. cbn. split_and!; try done. by left.
  - destruct (shabad (session σ)) as [sh|] eqn:Hsh.
    + destruct (lines sh) as [|l ls] eqn:Hlines.
      * rewrite (onLine_throws_without_lines σ p false sh Hsh Hlines).
        cbn. by rewrite Hsh.
      * destruct (first_and_last (lines sh)) as (first & lst & Hfirst & Hlast);
          [by rewrite Hlines |].
        rewrite (onLine_returns σ p false sh first lst Hsh Hfirst Hlast).
        cbn. by rewrite Hsh.
    + rewrite onLine_throws_without_shabad by done. cbn. by rewrite Hsh.
  - cbn. by split_and!.
  - cbn. by split_and!.
  - destruct (getBaniLines db baniId) as [b|] eqn:Hb.
    + destruct (head (lines b)) as [firstLine|] eqn:Hfirst.
      * rewrite (onBani_throws_in_onLine σ db baniId b firstLine Hb Hfirst).
        cbn. split_and!; try done. right. by split.
      * rewrite onBani_aborts.
        -- cbn. split_and!; try done. by left.
        -- right. exists b. split; [exact Hb |].
           destruct (lines b); [reflexivity | discriminate].
    + rewrite onBani_aborts by (by left). cbn. split_and!; try done. by left.
  - rewrite onSettings_returns. cbn [snd session clients].
    split; [reflexivity |]. split; [reflexivity |].
    split; [| by split_and!].
    intros k Hinh. rewrite !elem_of_dom. intros [v Hv].
    rewrite settingsApplied_lookup. cbn zeta. rewrite Hinh, Hv.
    destruct (restOf p !! k); simpl; destruct (decide (k = h)); simpl; eauto.
Qed.

Lemma run_cons (db : Db) (e : Event) (events : list Event) (σ : Server) :
  run db (e :: events) σ = run db events (after db e σ).
Proof. reflexivity. Qed.

(** The session never holds a Shabad and a Bani together: starting without
    both, as the constructor does, no sequence of events leads to a state
    with both. *)
Theorem one_content_at_a_time (db : Db) (events : list Event) (σ : Server) :
  shabad (session σ) = None ∨ bani (session σ) = None →
  shabad (session (run db events σ)) = None ∨
  bani (session (run db events σ)) = None.
Proof.
  revert σ. induction events as [|e events IH]; intros σ Hone; [exact Hone |].
  rewrite run_cons. apply IH.
  destruct (frame_after_event db e σ) as (_ & _ & _ & Hframe).
  cbv zeta in Hframe. destruct e; cbv beta iota in Hframe;
    try (destruct Hframe as (-> & -> & _); exact Hone).
  - destruct Hframe as [-> | [Hbani _]]; [exact Hone | by right].
  - destruct Hframe as [-> | [Hshabad _]]; [exact Hone | by left].
Qed.

Lemma one_content_at_a_time_witness :
  let select := EvShabad "remote"
                  (mkShabadPayload (Some "japji"%string) NumUndefined
                     (mkLinePayload None NumUndefined)) in
  let events := [select; EvBani "remote" "japji"; select;
                 EvBani "remote" "japji"] in
  (shabad (session freshServer) = None ∨ bani (session freshServer) = None) ∧
  bani (session (run scenarioDb events freshServer)) = Some japji ∧
  shabad (session (run scenarioDb events freshServer)) = None.
Proof.
  intros select events.
  assert (Hfresh : shabad (session freshServer) = None
                   ∨ bani (session freshServer) = None) by (by left).
  split; [exact Hfresh |]. split; [reflexivity |].
  destruct (one_content_at_a_time scenarioDb events freshServer Hfresh)
    as [Hshabad | Hbani]; [exact Hshabad | discriminate Hbani].
Defined.

(** What a sequence of events cannot change.  No event changes the status;
    events other than Shabad and Bani selections leave the Shabad and the
    Bani as they are; and events other than Shabad selections and highlights
    leave the highlighted line as it is. *)
Theorem events_keep (db : Db) (events : list Event) (σ : Server) :
  let σ' := run db events σ in
  status (session σ') = status (session σ) ∧
  (Forall (λ e, match e with
                | EvShabad _ _ | EvBani _ _ => False
                | _ => True
                end) events →
   shabad (session σ') = shabad (session σ) ∧
   bani (session σ') = bani (session σ)) ∧
  (Forall (λ e, match e with
                | EvShabad _ _ | EvMainLine _ _ => False
                | _ => True
                end) events →
   mainLineId (session σ') = mainLineId (session σ)).
Proof.
  revert σ. induction events as [|e events IH]; intros σ; [by repeat split |].
  cbn zeta. rewrite run_cons.
  destruct (IH (after db e σ)) as (Hstatus & Hcontent & Hmain).
  destruct (frame_after_event db e σ) as (Hstatus1 & _ & _ & Hframe).
  split; [congruence |]. split.
  - intros Hall. apply Forall_cons in Hall as [He Hall].
    destruct (Hcontent Hall) as [-> ->].
    cbv zeta in Hframe.
    destruct e; try contradiction; cbv beta iota in Hframe;
      by destruct Hframe as (-> & -> & _).
  - intros Hall. apply Forall_cons in Hall as [He Hall].
    rewrite (Hmain Hall).
    cbv zeta in Hframe.
    destruct e; try contradiction; cbv beta iota in Hframe;
      try (by destruct Hframe as (_ & _ & ->)).
    destruct Hframe as [-> | [_ ->]]; reflexivity.
Qed.

Lemma events_keep_witness :
  let σ := after scenarioDb (EvMainLine "remote" (Some "l2"%string))
             japjiServer in
  let events := [EvLine "remote" (mkLinePayload (Some "l2"%string) NumUndefined);
                 EvClearHistory; Connection "tv";
                 EvSettings "tv" {["local"%string := dark]};
                 Disconnection "tv"] in
  shabad (session (run scenarioDb events σ)) = Some japji ∧
  mainLineId (session (run scenarioDb events σ)) = Some "l2"%string.
Proof.
  intros σ events.
  destruct (events_keep scenarioDb events σ) as (_ & Hcontent & Hmain).
  split.
  - destruct Hcontent as [-> _]; [repeat constructor | reflexivity].
  - rewrite Hmain; [reflexivity | repeat constructor].
Defined.

(** The stored settings keep every host name that is not the name of a
    property every object inherits: whatever events follow, such a name
    stays, a disconnection only binding the name of the host to [undefined].
    A name that is inherited ([constructor], [toString], ...) is skipped by
    the merge, so no such name is stored after a settings event. *)
Theorem settings_keep_every_host (db : Db) (events : list Event) (σ : Server) :
  (∀ k, inherited k = false →
        k ∈ dom (settings (session σ)) →
        k ∈ dom (settings (session (run db events σ)))) ∧
  (∀ host, host ∈ dom (settings (session (run db [Disconnection host] σ)))) ∧
  (∀ host payload k,
     inherited k = true →
     settings (session (run db [EvSettings host payload] σ)) !! k = None).
Proof.
  split_and!.
  - revert σ. induction events as [|e events IH]; intros σ k Hk Hin;
      [exact Hin |].
    rewrite run_cons.
    destruct (frame_after_event db e σ) as (_ & _ & Hdom & _).
    apply IH; [exact Hk |]. by apply Hdom.
  - intros host. cbn. rewrite dom_insert_L. set_solver.
  - intros host payload k Hk. rewrite run_cons. cbn [run foldl].
    rewrite after_onSettings, settingsApplied_lookup. cbn zeta. rewrite Hk.
    assert (Hentry : match restOf payload !! k with
                     | Some v => mergeKey None k v
                     | None => clone <$> None
                     end = None).
    { destruct (restOf payload !! k); simpl; by rewrite ?Hk. }
    rewrite Hentry. destruct (decide (k = host)); simpl; by rewrite ?Hk.
Qed.

(** ** History, status and the backend interface *)

Lemma findLine_null (ls : list Line) : findLine None ls = None.
Proof. unfold findLine. induction ls; simpl; congruence. Qed.

(** Clearing the history empties it and broadcasts the empty list.  A line
    selection that follows adds one entry, and that entry is among the
    transitions only if the selection resolved [null]: after a plain move
    to a line the transitions are still empty. *)
Theorem onClearHistory_then_line
    (db : Db) (host : string) (payload : LinePayload) (σ : Server)
    (sh : Content) :
  shabad (session σ) = Some sh →
  lines sh ≠ [] →
  let σ1 := after db EvClearHistory σ in
  let σ2 := after db (EvLine host payload) σ1 in
  history (session σ1) = [] ∧
  emitted db EvClearHistory σ = [Broadcast "history" (PHistory [])] ∧
  length (history (session σ2)) = 1%nat ∧
  History.getTransitionsOnly (history (session σ2)) =
    match lineId (session σ2) with
    | None => [mkEntry None true]
    | Some _ => []
    end.
Proof.
  intros Hsh Hlines σ1 σ2.
  destruct (first_and_last (lines sh) Hlines) as (first & lst & Hfirst & Hlast).
  assert (Hsh1 : shabad (session σ1) = Some sh) by exact Hsh.
  assert (Hempty : history (session σ1) = []) by reflexivity.
  split; [exact Hempty |].
  split; [unfold emitted, after; cbn; by rewrite drop_app_length |].
  subst σ2.
  change (after db (EvLine host payload) σ1)
    with (snd (onLine payload false σ1)).
  rewrite (onLine_returns σ1 payload false sh first lst Hsh1 Hfirst Hlast).
  cbn [snd session history lineId]. rewrite Hempty.
  split; [reflexivity |].
  destruct (newLineId sh first lst payload) eqn:Hid; cbn; [reflexivity |].
  by rewrite findLine_null.
Qed.

Lemma onClearHistory_then_line_witness :
  let σ1 := after scenarioDb EvClearHistory japjiServer in
  let move := EvLine "remote" (mkLinePayload (Some "l2"%string) NumUndefined) in
  let clear := EvLine "remote" (mkLinePayload None NumUndefined) in
  shabad (session japjiServer) = Some japji ∧
  lines japji ≠ [] ∧
  History.getTransitionsOnly (history (session (after scenarioDb move σ1)))
    = [] ∧
  History.getTransitionsOnly (history (session (after scenarioDb clear σ1)))
    = [mkEntry None true].
Proof.
  intros σ1 move clear.
  assert (Hlines : lines japji ≠ []) by discriminate.
  destruct (onClearHistory_then_line scenarioDb "remote"
              (mkLinePayload (Some "l2"%string) NumUndefined) japjiServer
              japji eq_refl Hlines) as (_ & _ & _ & Hmove).
  destruct (onClearHistory_then_line scenarioDb "remote"
              (mkLinePayload None NumUndefined) japjiServer
              japji eq_refl Hlines) as (_ & _ & _ & Hclear).
  split; [reflexivity |]. split; [exact Hlines |].
  split; [exact Hmove | exact Hclear].
Defined.

(** [setStatus] and [set] store a status alike, but only [setStatus] tells
    the connected clients; a status stored with [set] is read back by [get]
    and reaches a client when it connects. *)
Theorem setStatus_versus_set
    (db : Db) (host : string) (st : option string) (σ : Server) :
  let patch := mkStatePatch None None None None None None None (Some st) in
  let σ1 := snd (setStatus st σ) in
  let σ2 := snd (SessionManager.set JUndef (Some patch) σ) in
  session σ1 = session σ2 ∧
  status (session σ2) = st ∧
  sent σ1 = sent σ ++ [Broadcast "status" (PStatus st)] ∧
  sent σ2 = sent σ ∧
  (∃ g, fst (SessionManager.get σ2) = Returned (g, session σ2)) ∧
  SendJSON host "status" (PStatus st) ∈ emitted db (Connection host) σ2.
Proof.
  intros patch σ1 σ2. subst σ1 σ2 patch.
  unfold emitted, after. cbn [handle]. rewrite synchronise_returns.
  cbn [snd sent]. rewrite drop_app_length. cbn.
  repeat split; [by eexists |].
  do 4 apply list_elem_of_further. apply list_elem_of_here.
Qed.

(** ** The controls of the navigator *)

(** With a Bani in the properties, jumping to the first or to the last line
    never moves to another Shabad: it selects the first, or the last, line of
    the content shown, and throws if the content has no line. *)
Theorem jump_stays_in_a_bani (p : Navigator.Props) (b c : Content) :
  Navigator.bani p = Some b →
  Navigator.content p = Some c →
  Navigator.jumpFirstLine p
    = Navigator.lift (Navigator.line ∘ line_id <$> head (lines c)) ∧
  Navigator.jumpLastLine p
    = Navigator.lift (Navigator.line ∘ line_id <$> last (lines c)).
Proof.
  intros Hbani Hcontent.
  unfold Navigator.jumpFirstLine, Navigator.jumpLastLine, Navigator.noBani.
  rewrite Hcontent, Hbani. cbn [andb].
  split; [destruct (head (lines c)) | destruct (last (lines c))]; reflexivity.
Qed.

Lemma jump_stays_in_a_bani_witness :
  let p := Navigator.mkProps (Some "l1"%string) (Some "l1"%string)
             None (Some japji) in
  Navigator.bani p = Some japji ∧
  Navigator.content p = Some japji ∧
  Navigator.jumpFirstLine p = Returned (Navigator.line "l1") ∧
  Navigator.jumpLastLine p = Returned (Navigator.line "l2").
Proof.
  intros p.
  destruct (jump_stays_in_a_bani p japji japji eq_refl eq_refl)
    as [Hfirst Hlast].
  split; [reflexivity |]. split; [reflexivity |].
  split; [exact Hfirst | exact Hlast].
Defined.

(** On a Shabad, with no Bani, the buttons of the bar leave the Shabad at its
    ends: Up on the first line asks for the previous Shabad and Down on the
    last line for the next one, by the order id of the Shabad; the same
    holds for the jumps when the focused line is that end. *)
Theorem bar_leaves_the_shabad_at_its_ends
    (p : Navigator.Props) (sh : Content) (first lst : Line) :
  Navigator.shabad p = Some sh →
  Navigator.bani p = None →
  head (lines sh) = Some first →
  last (lines sh) = Some lst →
  (Navigator.lineId p = Some (line_id first) →
     Navigator.onUpClick p
     = Some (Returned (Navigator.previousShabad (content_orderId sh)))) ∧
  (Navigator.lineId p = Some (line_id lst) →
     Navigator.onDownClick p
     = Some (Returned (Navigator.nextShabad (content_orderId sh)))) ∧
  (Navigator.focused p = Some (line_id first) →
     Navigator.jumpFirstLine p
     = Returned (Navigator.previousShabad (content_orderId sh))) ∧
  (Navigator.focused p = Some (line_id lst) →
     Navigator.jumpLastLine p
     = Returned (Navigator.nextShabad (content_orderId sh))).
Proof.
  intros Hsh Hbani Hfirst Hlast.
  unfold Navigator.onUpClick, Navigator.onDownClick, Navigator.jumpFirstLine,
    Navigator.jumpLastLine, Navigator.content, Navigator.noBani,
    Navigator.isId.
  rewrite Hsh, Hbani, Hfirst, Hlast. cbn [andb].
  repeat split; intros ->; by rewrite String.eqb_refl.
Qed.

Lemma bar_leaves_the_shabad_at_its_ends_witness :
  let p := Navigator.mkProps (Some "l2"%string) (Some "l1"%string)
             (Some japji) None in
  Navigator.onUpClick p = Some (Returned (Navigator.previousShabad 1)) ∧
  Navigator.onDownClick p = Some (Returned (Navigator.nextLine 0)) ∧
  Navigator.jumpLastLine p = Returned (Navigator.nextShabad 1) ∧
  Navigator.jumpFirstLine p = Returned (Navigator.line "l1").
Proof.
  intros p.
  destruct (bar_leaves_the_shabad_at_its_ends p japji l1 l2
              eq_refl eq_refl eq_refl eq_refl) as (Hup & _ & _ & Hlast).
  split; [exact (Hup eq_refl) |]. split; [reflexivity |].
  split; [exact (Hlast eq_refl) | reflexivity].
Defined.

(** While the current line is none of the lines of the content shown, as
    when the line is [null], both buttons of the bar throw. *)
Theorem bar_throws_without_current_line (p : Navigator.Props) (c : Content) :
  Navigator.content p = Some c →
  Forall (λ l, Navigator.isId (Navigator.lineId p) l = false) (lines c) →
  Navigator.onUpClick p = Some Threw ∧
  Navigator.onDownClick p = Some Threw.
Proof.
  intros Hcontent Hnone.
  assert (Hcurrent : Navigator.currentLine p c = None).
  { unfold Navigator.currentLine.
    induction Hnone as [|l ls Hl _ IH]; [reflexivity |]. simpl.
    by rewrite Hl. }
  rewrite Forall_forall in Hnone.
  unfold Navigator.onUpClick, Navigator.onDownClick.
  rewrite Hcontent, Hcurrent. split; f_equal.
  - destruct (head (lines c)) as [firstLine|] eqn:Hfirst; [| reflexivity].
    rewrite (Hnone firstLine), andb_false_r; [reflexivity |].
    destruct (lines c); [discriminate |]. injection Hfirst as ->.
    apply list_elem_of_here.
  - destruct (last (lines c)) as [lastLine|] eqn:Hlast; [| reflexivity].
    rewrite (Hnone lastLine), andb_false_r; [reflexivity |].
    apply last_Some in Hlast as [l' ->]. apply elem_of_app. right.
    apply list_elem_of_singleton. reflexivity.
Qed.

Lemma bar_throws_without_current_line_witness :
  let p := Navigator.mkProps None None (Some japji) None in
  Navigator.content p = Some japji ∧
  Forall (λ l, Navigator.isId (Navigator.lineId p) l = false) (lines japji) ∧
  Navigator.onUpClick p = Some Threw ∧
  Navigator.onDownClick p = Some Threw.
Proof.
  intros p.
  assert (Hnone : Forall (λ l, Navigator.isId (Navigator.lineId p) l = false)
                    (lines japji)) by (repeat constructor).
  destruct (bar_throws_without_current_line p japji eq_refl Hnone)
    as [Hup Hdown].
  split; [reflexivity |]. split; [exact Hnone |].
  split; [exact Hup | exact Hdown].
Defined.
